(** * Subscriber store and backend proxy of the 4G core deployment controller

    A shallow embedding of
    - [models/subscriber.py]   (pydantic models and their validators),
    - [services/mongodb.py]    (lazy creation of the unique index on [imsi]),
    - [routers/core/subscribers.py] (list / create / delete / replace),
    - [routers/core/proxy.py]  (forwarding to the MME and SMF backends),
    followed by the properties proved about them.

    Conventions.  A Python [str] is a Rocq [string], one [ascii] per
    character.  A Python [int] is a [Z].  A dict handed to
    [model_validate] (a request body, or a document read back from the
    collection) is a record of [Input] slots: a key can be absent, hold
    [null], or hold a value of the field's type.  Code that raises returns
    a sum; code that mutates the collection or draws a fresh [ObjectId]
    passes the state explicitly. *)

From Stdlib Require Import ZArith NArith List String Ascii Bool Lia.
Import ListNotations.
Local Open Scope string_scope.

(* ================================================================== *)
(** ** Characters and strings *)

Module Text.

Definition code (c : ascii) : nat := nat_of_ascii c.

(** [lo-hi] inside a character class. *)
Definition in_range (lo hi c : ascii) : bool :=
  Nat.leb (code lo) (code c) && Nat.leb (code c) (code hi).

Definition in_class (ranges : list (ascii * ascii)) (c : ascii) : bool :=
  existsb (fun r => in_range (fst r) (snd r) c) ranges.

Fixpoint chars (s : string) : list ascii :=
  match s with
  | EmptyString => []
  | String c rest => c :: chars rest
  end.

(** Python truthiness of a [str]: false exactly for the empty string. *)
Definition truthy (s : string) : bool :=
  match s with
  | EmptyString => false
  | String _ _ => true
  end.

(** ASCII case folding, used by caseless matching. *)
Definition lower (c : ascii) : ascii :=
  if in_range "A" "Z" c then ascii_of_nat (code c + 32) else c.

Fixpoint lower_string (s : string) : string :=
  match s with
  | EmptyString => EmptyString
  | String c rest => String (lower c) (lower_string rest)
  end.

Definition hex_digit (n : N) : ascii :=
  match n with
  | 0%N => "0" | 1%N => "1" | 2%N => "2" | 3%N => "3"
  | 4%N => "4" | 5%N => "5" | 6%N => "6" | 7%N => "7"
  | 8%N => "8" | 9%N => "9" | 10%N => "a" | 11%N => "b"
  | 12%N => "c" | 13%N => "d" | 14%N => "e" | _ => "f"
  end%char.

(** Fixed-width lower-case hexadecimal, most significant digit first. *)
Fixpoint hex_fixed (width : nat) (n : N) (acc : string) : string :=
  match width with
  | O => acc
  | S w => hex_fixed w (N.div n 16) (String (hex_digit (N.modulo n 16)) acc)
  end.

End Text.

(* ================================================================== *)
(** ** Field patterns

    Every [Field(pattern=...)] of the models has the shape
    [^[class]{min,max}$].  pydantic compiles patterns with the Rust regex
    engine, where [^] and [$] are the two ends of the text: the pattern
    accepts a text when it has between [min] and [max] characters, all of
    them in the class. *)

Module Pattern.

Record t := {
  class : list (ascii * ascii);
  min_repeat : nat;
  max_repeat : nat
}.

(** Consume characters of the class, at most [hi] of them; the end of the
    text is accepted once at least [lo] were consumed. *)
Fixpoint match_bounded (cls : ascii -> bool) (lo hi : nat) (s : string) {struct s}
  : bool :=
  match s with
  | EmptyString => Nat.eqb lo 0
  | String c rest =>
      match hi with
      | O => false
      | S hi' => cls c && match_bounded cls (Nat.pred lo) hi' rest
      end
  end.

Definition matches (p : t) (s : string) : bool :=
  match_bounded (Text.in_class (class p)) (min_repeat p) (max_repeat p) s.

Definition digit : list (ascii * ascii) := [("0", "9")]%char.
Definition hex : list (ascii * ascii) := [("0", "9"); ("a", "f"); ("A", "F")]%char.

End Pattern.

(* ================================================================== *)
(** ** JSON values ([Any]) *)

#[local] Unset Elimination Schemes.
Inductive JSON : Type :=
| JNull
| JBool (b : bool)
| JNumber (z : Z)
| JString (s : string)
| JArray (items : list JSON)
| JObject (members : list (string * JSON)).
#[local] Set Elimination Schemes.

(* ================================================================== *)
(** ** Validation results *)

(** One key of an input dict. *)
Inductive Input (A : Type) : Type :=
| Absent
| Null
| Given (a : A).
Arguments Absent {A}.
Arguments Null {A}.
Arguments Given {A} a.

Inductive LocItem : Type :=
| Key (name : string)
| Index (i : nat).

Inductive ErrorKind : Type :=
| missing
| wrong_type
| string_pattern_mismatch
| string_too_long
| greater_than_equal (bound : Z)
| value_error (msg : string).

Record ErrorDetail := {
  loc : list LocItem;
  kind : ErrorKind
}.

(** The outcome of building a model: the model, or pydantic's
    [ValidationError] with the errors of all fields. *)
Inductive Validated (A : Type) : Type :=
| Valid (a : A)
| ValidationError (errors : list ErrorDetail).
Arguments Valid {A} a.
Arguments ValidationError {A} errors.

Module V.

Definition is_valid {A} (v : Validated A) : bool :=
  match v with
  | Valid _ => true
  | ValidationError _ => false
  end.

Definition errors_of {A} (v : Validated A) : list ErrorDetail :=
  match v with
  | Valid _ => []
  | ValidationError es => es
  end.

Definition fail {A} (k : ErrorKind) : Validated A :=
  ValidationError [{| loc := []; kind := k |}].

(** Errors of a field are reported under the field's key. *)
Definition under {A} (item : LocItem) (v : Validated A) : Validated A :=
  match v with
  | Valid a => Valid a
  | ValidationError es =>
      ValidationError
        (map (fun e => {| loc := item :: loc e; kind := kind e |}) es)
  end.

(** Fields are validated one after the other and their errors are
    collected. *)
Definition ap {A B} (vf : Validated (A -> B)) (va : Validated A) : Validated B :=
  match vf, va with
  | Valid f, Valid a => Valid (f a)
  | _, _ => ValidationError (errors_of vf ++ errors_of va)%list
  end.

Definition bind {A B} (v : Validated A) (k : A -> Validated B) : Validated B :=
  match v with
  | Valid a => k a
  | ValidationError es => ValidationError es
  end.

(** [x: T] with no default. *)
Definition required {A B} (check : A -> Validated B) (i : Input A) : Validated B :=
  match i with
  | Absent => fail missing
  | Null => fail wrong_type
  | Given a => check a
  end.

(** [x: T = d]. *)
Definition defaulted {A B} (d : B) (check : A -> Validated B) (i : Input A) : Validated B :=
  match i with
  | Absent => Valid d
  | Null => fail wrong_type
  | Given a => check a
  end.

(** [x: Optional[T] = d]. *)
Definition optional {A B} (d : option B) (check : A -> Validated B) (i : Input A)
  : Validated (option B) :=
  match i with
  | Absent => Valid d
  | Null => Valid None
  | Given a => bind (check a) (fun b => Valid (Some b))
  end.

Definition any {A} (a : A) : Validated A := Valid a.

End V.

Notation "f <*> a" := (V.ap f a) (at level 61, left associativity).

(* ================================================================== *)
(** ** Object identifiers *)

(** A BSON [_id]: an [ObjectId] (12 bytes), or a string. *)
Inductive BsonId : Type :=
| ObjectId (n : N)
| StrId (s : string).

(** [str(ObjectId(...))]: 24 hexadecimal digits. *)
Definition ObjectId_str (n : N) : string := Text.hex_fixed 24 n "".

(** [PyObjectId = Annotated[str, BeforeValidator(str)]]. *)
Definition PyObjectId (v : BsonId) : string :=
  match v with
  | ObjectId n => ObjectId_str n
  | StrId s => s
  end.

(** The source of fresh [ObjectId()] values: the next one to hand out. *)
Definition ObjectIdGen := N.

Definition ObjectId_new (g : ObjectIdGen) : N * ObjectIdGen := (g, N.succ g).

Definition BsonId_eqb (a b : BsonId) : bool :=
  match a, b with
  | ObjectId x, ObjectId y => N.eqb x y
  | StrId x, StrId y => String.eqb x y
  | _, _ => false
  end.

(* ================================================================== *)
(** ** models/subscriber.py *)

Module Models.

(** [clean_hex_spaces]: [v.replace(" ", "")] removes every space
    character (U+0020) and nothing else. *)
Fixpoint clean_hex_spaces (v : string) : string :=
  match v with
  | EmptyString => EmptyString
  | String c rest =>
      if Ascii.eqb c " " then clean_hex_spaces rest
      else String c (clean_hex_spaces rest)
  end.

(** [^[0-9]{14,15}$] *)
Definition ImsiStr_pattern : Pattern.t :=
  {| Pattern.class := Pattern.digit; Pattern.min_repeat := 14; Pattern.max_repeat := 15 |}.
(** [^[0-9a-fA-F]{32}$] *)
Definition Hex32Str_pattern : Pattern.t :=
  {| Pattern.class := Pattern.hex; Pattern.min_repeat := 32; Pattern.max_repeat := 32 |}.
(** [^[0-9a-fA-F]{4}$] *)
Definition Hex4Str_pattern : Pattern.t :=
  {| Pattern.class := Pattern.hex; Pattern.min_repeat := 4; Pattern.max_repeat := 4 |}.

Definition constrained (p : Pattern.t) (s : string) : Validated string :=
  if Pattern.matches p s then Valid s else V.fail string_pattern_mismatch.

Definition ImsiStr (s : string) : Validated string :=
  constrained ImsiStr_pattern s.
Definition Hex32Str (s : string) : Validated string :=
  constrained Hex32Str_pattern (clean_hex_spaces s).
Definition Hex4Str (s : string) : Validated string :=
  constrained Hex4Str_pattern (clean_hex_spaces s).

Definition max_length (n : nat) (s : string) : Validated string :=
  if Nat.leb (String.length s) n then Valid s else V.fail string_too_long.

Definition field {A} (name : string) (v : Validated A) : Validated A :=
  V.under (Key name) v.

(** *** The models *)

Record AmbrValueModel := {
  ambr_value : Z;
  ambr_unit : Z
}.

Record AmbrModel := {
  downlink : AmbrValueModel;
  uplink : AmbrValueModel
}.

Record ArpModel := {
  priority_level : Z;
  pre_emption_capability : Z;
  pre_emption_vulnerability : Z
}.

Record QosModel := {
  qos_index : Z;
  arp : option ArpModel
}.

Record UeModel := {
  ipv4 : option string;
  ipv6 : option string
}.

Record SessionModel := {
  session_name : string;
  session_type : Z;
  qos : QosModel;
  session_ambr : AmbrModel;
  ue : option UeModel;
  pcc_rule : list (list (string * JSON));
  lbo_roaming_allowed : option bool;
  session_id : option string
}.

Record SliceModel := {
  sst : Z;
  sd : option string;
  default_indicator : bool;
  session : list SessionModel;
  slice_id : option string
}.

Record SecurityModel := {
  k : string;
  amf : string;
  op : option string;
  opc : option string
}.

Record SubscriberSchema := {
  subscriber_id : option string;
  schema_version : Z;
  imsi : string;
  name : option string;
  msisdn : list string;
  imeisv : list string;
  mme_host : list string;
  mm_realm : list string;
  purge_flag : list bool;
  slice : list SliceModel;
  security : SecurityModel;
  ambr : AmbrModel;
  access_restriction_data : Z;
  network_access_mode : Z;
  subscriber_status : Z;
  operator_determined_barring : Z;
  subscribed_rau_tau_timer : Z;
  subscriber_v : Z
}.

(** *** The dicts they are built from and dumped to *)

Record AmbrValueInput := {
  i_ambr_value : Input Z;
  i_ambr_unit : Input Z
}.

Record AmbrInput := {
  i_downlink : Input AmbrValueInput;
  i_uplink : Input AmbrValueInput
}.

Record ArpInput := {
  i_priority_level : Input Z;
  i_pre_emption_capability : Input Z;
  i_pre_emption_vulnerability : Input Z
}.

Record QosInput := {
  i_qos_index : Input Z;
  i_arp : Input ArpInput
}.

Record UeInput := {
  i_ipv4 : Input string;
  i_ipv6 : Input string
}.

Record SessionInput := {
  i_session_name : Input string;
  i_session_type : Input Z;
  i_qos : Input QosInput;
  i_session_ambr : Input AmbrInput;
  i_ue : Input UeInput;
  i_pcc_rule : Input (list (list (string * JSON)));
  i_lbo_roaming_allowed : Input bool;
  i_session_id : Input string
}.

Record SliceInput := {
  i_sst : Input Z;
  i_sd : Input string;
  i_default_indicator : Input bool;
  i_session : Input (list SessionInput);
  i_slice_id : Input string
}.

Record SecurityInput := {
  i_k : Input string;
  i_amf : Input string;
  i_op : Input string;
  i_opc : Input string
}.

Record SubscriberInput := {
  i_id : Input BsonId;
  i_schema_version : Input Z;
  i_imsi : Input string;
  i_name : Input string;
  i_msisdn : Input (list string);
  i_imeisv : Input (list string);
  i_mme_host : Input (list string);
  i_mm_realm : Input (list string);
  i_purge_flag : Input (list bool);
  i_slice : Input (list SliceInput);
  i_security : Input SecurityInput;
  i_ambr : Input AmbrInput;
  i_access_restriction_data : Input Z;
  i_network_access_mode : Input Z;
  i_subscriber_status : Input Z;
  i_operator_determined_barring : Input Z;
  i_subscribed_rau_tau_timer : Input Z;
  i_v : Input Z
}.

(** *** Validation *)

Definition AmbrValueModel_validate (raw : AmbrValueInput) : Validated AmbrValueModel :=
  Valid Build_AmbrValueModel
    <*> field "value" (V.required V.any (i_ambr_value raw))
    <*> field "unit" (V.required V.any (i_ambr_unit raw)).

(** [AmbrValueModel(value=1000000000, unit=0)] *)
Definition AmbrValueModel_default : AmbrValueModel :=
  {| ambr_value := 1000000000; ambr_unit := 0 |}.

Definition AmbrModel_validate (raw : AmbrInput) : Validated AmbrModel :=
  Valid Build_AmbrModel
    <*> field "downlink"
          (V.defaulted AmbrValueModel_default AmbrValueModel_validate (i_downlink raw))
    <*> field "uplink"
          (V.defaulted AmbrValueModel_default AmbrValueModel_validate (i_uplink raw)).

Definition AmbrModel_default : AmbrModel :=
  {| downlink := AmbrValueModel_default; uplink := AmbrValueModel_default |}.

Definition ArpModel_validate (raw : ArpInput) : Validated ArpModel :=
  Valid Build_ArpModel
    <*> field "priority_level" (V.defaulted 8%Z V.any (i_priority_level raw))
    <*> field "pre_emption_capability"
          (V.defaulted 1%Z V.any (i_pre_emption_capability raw))
    <*> field "pre_emption_vulnerability"
          (V.defaulted 2%Z V.any (i_pre_emption_vulnerability raw)).

Definition ArpModel_default : ArpModel :=
  {| priority_level := 8; pre_emption_capability := 1; pre_emption_vulnerability := 2 |}.

Definition QosModel_validate (raw : QosInput) : Validated QosModel :=
  Valid Build_QosModel
    <*> field "index" (V.defaulted 9%Z V.any (i_qos_index raw))
    <*> field "arp" (V.optional (Some ArpModel_default) ArpModel_validate (i_arp raw)).

Definition QosModel_default : QosModel :=
  {| qos_index := 9; arp := Some ArpModel_default |}.

Definition UeModel_validate (raw : UeInput) : Validated UeModel :=
  Valid Build_UeModel
    <*> field "ipv4" (V.optional None V.any (i_ipv4 raw))
    <*> field "ipv6" (V.optional None V.any (i_ipv6 raw)).

(** [Optional[PyObjectId] = Field(default_factory=lambda: str(ObjectId()))]:
    a missing key draws a fresh identifier. *)
Definition object_id_factory (i : Input string) (g : ObjectIdGen)
  : Validated (option string) * ObjectIdGen :=
  match i with
  | Absent => let (n, g') := ObjectId_new g in (Valid (Some (ObjectId_str n)), g')
  | Null => (Valid None, g)
  | Given s => (Valid (Some s), g)
  end.

Definition SessionModel_validate (raw : SessionInput) (g : ObjectIdGen)
  : Validated SessionModel * ObjectIdGen :=
  let (vid, g') := object_id_factory (i_session_id raw) g in
  (Valid Build_SessionModel
     <*> field "name" (V.defaulted "internet" V.any (i_session_name raw))
     <*> field "type" (V.defaulted 3%Z V.any (i_session_type raw))
     <*> field "qos" (V.defaulted QosModel_default QosModel_validate (i_qos raw))
     <*> field "ambr" (V.defaulted AmbrModel_default AmbrModel_validate (i_session_ambr raw))
     <*> field "ue" (V.optional None UeModel_validate (i_ue raw))
     <*> field "pcc_rule" (V.defaulted [] V.any (i_pcc_rule raw))
     <*> field "lbo_roaming_allowed" (V.optional None V.any (i_lbo_roaming_allowed raw))
     <*> field "_id" vid,
   g').

(** A [List[Model]] field: the items in order, each under its index. *)
Fixpoint validate_items {A B} (item : A -> ObjectIdGen -> Validated B * ObjectIdGen)
    (i : nat) (xs : list A) (g : ObjectIdGen) : Validated (list B) * ObjectIdGen :=
  match xs with
  | [] => (Valid [], g)
  | x :: rest =>
      let (vx, g1) := item x g in
      let (vrest, g2) := validate_items item (S i) rest g1 in
      (Valid cons <*> V.under (Index i) vx <*> vrest, g2)
  end.

(** [x: List[Model]] with no default: the key must be there; no minimum
    length is declared. *)
Definition required_items {A B} (item : A -> ObjectIdGen -> Validated B * ObjectIdGen)
    (i : Input (list A)) (g : ObjectIdGen) : Validated (list B) * ObjectIdGen :=
  match i with
  | Absent => (V.fail missing, g)
  | Null => (V.fail wrong_type, g)
  | Given xs => validate_items item 0 xs g
  end.

Definition SliceModel_validate (raw : SliceInput) (g : ObjectIdGen)
  : Validated SliceModel * ObjectIdGen :=
  let (vsession, g1) := required_items SessionModel_validate (i_session raw) g in
  let (vid, g2) := object_id_factory (i_slice_id raw) g1 in
  (Valid Build_SliceModel
     <*> field "sst" (V.defaulted 1%Z V.any (i_sst raw))
     <*> field "sd" (V.optional (Some "000001") V.any (i_sd raw))
     <*> field "default_indicator" (V.defaulted true V.any (i_default_indicator raw))
     <*> field "session" vsession
     <*> field "_id" vid,
   g2).

(** Truthiness of an [Optional[str]]: [None] and [""] are false. *)
Definition truthy (o : option string) : bool :=
  match o with
  | Some s => Text.truthy s
  | None => false
  end.

(** [SecurityModel.check_op_or_opc], run after the fields validated. *)
Definition check_op_or_opc (self : SecurityModel) : Validated SecurityModel :=
  if truthy (op self) && truthy (opc self) then
    V.fail (value_error "Provide either OP or OPC, not both.")
  else if negb (truthy (op self)) && negb (truthy (opc self)) then
    V.fail (value_error "Provide at least one: OP or OPC.")
  else Valid self.

Definition SecurityModel_validate (raw : SecurityInput) : Validated SecurityModel :=
  V.bind
    (Valid Build_SecurityModel
       <*> field "k" (V.required Hex32Str (i_k raw))
       <*> field "amf" (V.defaulted "8000" Hex4Str (i_amf raw))
       <*> field "op" (V.optional None Hex32Str (i_op raw))
       <*> field "opc" (V.optional None Hex32Str (i_opc raw)))
    check_op_or_opc.

Definition SubscriberSchema_model_validate (raw : SubscriberInput) (g : ObjectIdGen)
  : Validated SubscriberSchema * ObjectIdGen :=
  let (vslice, g') := required_items SliceModel_validate (i_slice raw) g in
  (Valid Build_SubscriberSchema
     <*> field "_id" (V.optional None (fun b => Valid (PyObjectId b)) (i_id raw))
     <*> field "schema_version" (V.defaulted 1%Z V.any (i_schema_version raw))
     <*> field "imsi" (V.required ImsiStr (i_imsi raw))
     <*> field "name" (V.optional None (max_length 100) (i_name raw))
     <*> field "msisdn" (V.defaulted [] V.any (i_msisdn raw))
     <*> field "imeisv" (V.defaulted [] V.any (i_imeisv raw))
     <*> field "mme_host" (V.defaulted [] V.any (i_mme_host raw))
     <*> field "mm_realm" (V.defaulted [] V.any (i_mm_realm raw))
     <*> field "purge_flag" (V.defaulted [] V.any (i_purge_flag raw))
     <*> field "slice" vslice
     <*> field "security" (V.required SecurityModel_validate (i_security raw))
     <*> field "ambr" (V.defaulted AmbrModel_default AmbrModel_validate (i_ambr raw))
     <*> field "access_restriction_data"
           (V.defaulted 32%Z V.any (i_access_restriction_data raw))
     <*> field "network_access_mode" (V.defaulted 0%Z V.any (i_network_access_mode raw))
     <*> field "subscriber_status" (V.defaulted 0%Z V.any (i_subscriber_status raw))
     <*> field "operator_determined_barring"
           (V.defaulted 0%Z V.any (i_operator_determined_barring raw))
     <*> field "subscribed_rau_tau_timer"
           (V.defaulted 12%Z V.any (i_subscribed_rau_tau_timer raw))
     <*> field "__v" (V.defaulted 0%Z V.any (i_v raw)),
   g').

(** *** [model_dump(by_alias=True, exclude_none=True)] *)

Definition dump_option {A B} (f : A -> B) (o : option A) : Input B :=
  match o with
  | Some a => Given (f a)
  | None => Absent
  end.

Definition AmbrValueModel_dump (m : AmbrValueModel) : AmbrValueInput :=
  {| i_ambr_value := Given (ambr_value m); i_ambr_unit := Given (ambr_unit m) |}.

Definition AmbrModel_dump (m : AmbrModel) : AmbrInput :=
  {| i_downlink := Given (AmbrValueModel_dump (downlink m));
     i_uplink := Given (AmbrValueModel_dump (uplink m)) |}.

Definition ArpModel_dump (m : ArpModel) : ArpInput :=
  {| i_priority_level := Given (priority_level m);
     i_pre_emption_capability := Given (pre_emption_capability m);
     i_pre_emption_vulnerability := Given (pre_emption_vulnerability m) |}.

Definition QosModel_dump (m : QosModel) : QosInput :=
  {| i_qos_index := Given (qos_index m);
     i_arp := dump_option ArpModel_dump (arp m) |}.

Definition UeModel_dump (m : UeModel) : UeInput :=
  {| i_ipv4 := dump_option (fun s => s) (ipv4 m);
     i_ipv6 := dump_option (fun s => s) (ipv6 m) |}.

Definition SessionModel_dump (m : SessionModel) : SessionInput :=
  {| i_session_name := Given (session_name m);
     i_session_type := Given (session_type m);
     i_qos := Given (QosModel_dump (qos m));
     i_session_ambr := Given (AmbrModel_dump (session_ambr m));
     i_ue := dump_option UeModel_dump (ue m);
     i_pcc_rule := Given (pcc_rule m);
     i_lbo_roaming_allowed := dump_option (fun b => b) (lbo_roaming_allowed m);
     i_session_id := dump_option (fun s => s) (session_id m) |}.

Definition SliceModel_dump (m : SliceModel) : SliceInput :=
  {| i_sst := Given (sst m);
     i_sd := dump_option (fun s => s) (sd m);
     i_default_indicator := Given (default_indicator m);
     i_session := Given (map SessionModel_dump (session m));
     i_slice_id := dump_option (fun s => s) (slice_id m) |}.

Definition SecurityModel_dump (m : SecurityModel) : SecurityInput :=
  {| i_k := Given (k m);
     i_amf := Given (amf m);
     i_op := dump_option (fun s => s) (op m);
     i_opc := dump_option (fun s => s) (opc m) |}.

(** [exclude_id] is [exclude={"id"}]. *)
Definition SubscriberSchema_model_dump (exclude_id : bool) (m : SubscriberSchema)
  : SubscriberInput :=
  {| i_id := if exclude_id then Absent else dump_option StrId (subscriber_id m);
     i_schema_version := Given (schema_version m);
     i_imsi := Given (imsi m);
     i_name := dump_option (fun s => s) (name m);
     i_msisdn := Given (msisdn m);
     i_imeisv := Given (imeisv m);
     i_mme_host := Given (mme_host m);
     i_mm_realm := Given (mm_realm m);
     i_purge_flag := Given (purge_flag m);
     i_slice := Given (map SliceModel_dump (slice m));
     i_security := Given (SecurityModel_dump (security m));
     i_ambr := Given (AmbrModel_dump (ambr m));
     i_access_restriction_data := Given (access_restriction_data m);
     i_network_access_mode := Given (network_access_mode m);
     i_subscriber_status := Given (subscriber_status m);
     i_operator_determined_barring := Given (operator_determined_barring m);
     i_subscribed_rau_tau_timer := Given (subscribed_rau_tau_timer m);
     i_v := Given (subscriber_v m) |}.

(** [update_dict["imsi"] = imsi] and [subscriber_dict["_id"] = ...] *)
Definition set_imsi (x : string) (d : SubscriberInput) : SubscriberInput :=
  {| i_id := i_id d;
     i_schema_version := i_schema_version d;
     i_imsi := Given x;
     i_name := i_name d;
     i_msisdn := i_msisdn d;
     i_imeisv := i_imeisv d;
     i_mme_host := i_mme_host d;
     i_mm_realm := i_mm_realm d;
     i_purge_flag := i_purge_flag d;
     i_slice := i_slice d;
     i_security := i_security d;
     i_ambr := i_ambr d;
     i_access_restriction_data := i_access_restriction_data d;
     i_network_access_mode := i_network_access_mode d;
     i_subscriber_status := i_subscriber_status d;
     i_operator_determined_barring := i_operator_determined_barring d;
     i_subscribed_rau_tau_timer := i_subscribed_rau_tau_timer d;
     i_v := i_v d |}.

Definition set_id (x : Input BsonId) (d : SubscriberInput) : SubscriberInput :=
  {| i_id := x;
     i_schema_version := i_schema_version d;
     i_imsi := i_imsi d;
     i_name := i_name d;
     i_msisdn := i_msisdn d;
     i_imeisv := i_imeisv d;
     i_mme_host := i_mme_host d;
     i_mm_realm := i_mm_realm d;
     i_purge_flag := i_purge_flag d;
     i_slice := i_slice d;
     i_security := i_security d;
     i_ambr := i_ambr d;
     i_access_restriction_data := i_access_restriction_data d;
     i_network_access_mode := i_network_access_mode d;
     i_subscriber_status := i_subscriber_status d;
     i_operator_determined_barring := i_operator_determined_barring d;
     i_subscribed_rau_tau_timer := i_subscribed_rau_tau_timer d;
     i_v := i_v d |}.

End Models.

(* ================================================================== *)
(** ** The regular expressions of a [$regex] filter

    MongoDB hands the filter text to PCRE; with [$options: "i"] the match
    is caseless.  Modelled here is the fragment where every character of
    the pattern is an ordinary character standing for itself, or a dot
    standing for any character but a line feed.  A pattern that holds any
    other metacharacter is outside the fragment: [compile] gives [None]
    and the model says nothing about what such a filter selects. *)

Module PCRE.

Inductive Atom : Type :=
| Literal (c : ascii)
| AnyChar.

Definition metacharacters : list ascii := Text.chars "\^$.[]|()?*+{}".

Definition is_meta (c : ascii) : bool := existsb (Ascii.eqb c) metacharacters.

Fixpoint compile (pattern : string) : option (list Atom) :=
  match pattern with
  | EmptyString => Some []
  | String c rest =>
      match compile rest with
      | None => None
      | Some atoms =>
          if Ascii.eqb c "." then Some (AnyChar :: atoms)
          else if is_meta c then None
          else Some (Literal c :: atoms)
      end
  end.

Definition line_feed : ascii := ascii_of_nat 10.

Definition atom_matches (caseless : bool) (a : Atom) (c : ascii) : bool :=
  match a with
  | Literal l =>
      if caseless then Ascii.eqb (Text.lower l) (Text.lower c) else Ascii.eqb l c
  | AnyChar => negb (Ascii.eqb c line_feed)
  end.

(** The atoms match a prefix of the subject. *)
Fixpoint match_here (caseless : bool) (atoms : list Atom) (subject : string) : bool :=
  match atoms with
  | [] => true
  | a :: more =>
      match subject with
      | EmptyString => false
      | String c rest => atom_matches caseless a c && match_here caseless more rest
      end
  end.

(** An unanchored pattern matches anywhere in the subject. *)
Fixpoint search (caseless : bool) (atoms : list Atom) (subject : string) : bool :=
  match_here caseless atoms subject
  || match subject with
     | EmptyString => false
     | String _ rest => search caseless atoms rest
     end.

End PCRE.

(* ================================================================== *)
(** ** The subscribers collection

    What the handlers rely on from MongoDB: documents kept in storage
    order, each with an [_id]; an optional unique index on [imsi];
    [insert_one], [replace_one], [delete_one], [find] with [skip] and
    [limit], and [create_index]. *)

Module Mongo.
Import Models.

Definition Document := SubscriberInput.

Inductive Error : Type :=
| DuplicateKeyError
| WriteError (errmsg : string)
| OperationFailure (errmsg : string).

Record Collection := {
  documents : list Document;
  (** the unique index on [imsi] exists *)
  imsi_unique_index : bool;
  (** the server refuses [createIndexes] from this client *)
  refuses_index_builds : bool
}.

Definition with_documents (docs : list Document) (c : Collection) : Collection :=
  {| documents := docs;
     imsi_unique_index := imsi_unique_index c;
     refuses_index_builds := refuses_index_builds c |}.

(** The index key of a document: a missing or null [imsi] is indexed as
    null. *)
Definition imsi_key (d : Document) : option string :=
  match i_imsi d with
  | Given s => Some s
  | _ => None
  end.

Definition key_eqb (a b : option string) : bool :=
  match a, b with
  | Some x, Some y => String.eqb x y
  | None, None => true
  | _, _ => false
  end.

Fixpoint has_duplicates (keys : list (option string)) : bool :=
  match keys with
  | [] => false
  | key :: rest => existsb (key_eqb key) rest || has_duplicates rest
  end.

(** [create_index("imsi", unique=True)]: the server may refuse the
    command; there is nothing to do when the index exists; the build
    fails when two documents share a key. *)
Definition create_index (c : Collection) : Error + Collection :=
  if refuses_index_builds c then inl (OperationFailure "createIndexes refused")
  else if imsi_unique_index c then inr c
  else if has_duplicates (map imsi_key (documents c)) then inl DuplicateKeyError
  else inr {| documents := documents c;
              imsi_unique_index := true;
              refuses_index_builds := refuses_index_builds c |}.

Definition id_of (d : Document) : option BsonId :=
  match i_id d with
  | Given b => Some b
  | _ => None
  end.

Definition has_id (b : BsonId) (d : Document) : bool :=
  match id_of d with
  | Some b' => BsonId_eqb b b'
  | None => false
  end.

Definition has_key (key : option string) (d : Document) : bool :=
  key_eqb key (imsi_key d).

(** [insert_one]: the driver adds a fresh [_id] to a document that has
    none; the server refuses a second document with the same [_id], or
    with the same [imsi] when the unique index exists; the document
    goes to the end. *)
Definition insert_one (d : Document) (g : ObjectIdGen) (c : Collection)
  : (Error + BsonId) * ObjectIdGen * Collection :=
  let (b, g') :=
    match id_of d with
    | Some b => (b, g)
    | None => let (n, g') := ObjectId_new g in (ObjectId n, g')
    end in
  let d' := set_id (Given b) d in
  if existsb (has_id b) (documents c) then (inl DuplicateKeyError, g', c)
  else if imsi_unique_index c && existsb (has_key (imsi_key d')) (documents c)
  then (inl DuplicateKeyError, g', c)
  else (inr b, g', with_documents (documents c ++ [d'])%list c).

(** The filter [{"imsi": x}]. *)
Definition imsi_is (x : string) (d : Document) : bool :=
  match i_imsi d with
  | Given s => String.eqb s x
  | _ => false
  end.

(** The first document that satisfies [p], with what is stored before
    and after it. *)
Fixpoint split_first (p : Document -> bool) (docs : list Document)
  : option (list Document * Document * list Document) :=
  match docs with
  | [] => None
  | d :: rest =>
      if p d then Some ([], d, rest)
      else match split_first p rest with
           | Some (before, hit, after) => Some (d :: before, hit, after)
           | None => None
           end
  end.

Record UpdateResult := { matched_count : Z }.
Record DeleteResult := { deleted_count : Z }.

(** [replace_one({"imsi": x}, replacement)]: the first match is replaced
    in place and keeps its [_id]; a replacement that carries another
    [_id] is refused ([_id] is immutable), and so is one whose [imsi]
    another document has when the unique index exists. *)
Definition replace_one (x : string) (replacement : Document) (c : Collection)
  : Error + (UpdateResult * Collection) :=
  match split_first (imsi_is x) (documents c) with
  | None => inr ({| matched_count := 0 |}, c)
  | Some (before, hit, after) =>
      let same_id :=
        match id_of replacement with
        | None => true
        | Some b => has_id b hit
        end in
      if negb same_id then
        inl (WriteError "the (immutable) field '_id' was found to have been altered")
      else
        let d' := set_id (i_id hit) replacement in
        if imsi_unique_index c && existsb (has_key (imsi_key d')) (before ++ after)%list
        then inl DuplicateKeyError
        else inr ({| matched_count := 1 |},
                  with_documents (before ++ d' :: after)%list c)
  end.

(** [delete_one({"imsi": x})] *)
Definition delete_one (x : string) (c : Collection) : DeleteResult * Collection :=
  match split_first (imsi_is x) (documents c) with
  | None => ({| deleted_count := 0 |}, c)
  | Some (before, _, after) =>
      ({| deleted_count := 1 |}, with_documents (before ++ after)%list c)
  end.

(** *** Queries *)

(** [{"$elemMatch": {"sst": sst, "sd": sd}}], [sd] only when given. *)
Record ElemMatch := {
  em_sst : Z;
  em_sd : option string
}.

(** The [query] dict of [get_subscribers]:
    [{"name": {"$regex": ..., "$options": "i"}, "slice": {"$elemMatch": ...}}],
    either key possibly missing. *)
Record Query := {
  q_name_regex : option string;
  q_slice : option ElemMatch
}.

Definition Input_eqb {A} (eqb : A -> A -> bool) (i : Input A) (x : A) : bool :=
  match i with
  | Given a => eqb a x
  | _ => false
  end.

Definition slice_satisfies (m : ElemMatch) (s : SliceInput) : bool :=
  Input_eqb Z.eqb (i_sst s) (em_sst m)
  && match em_sd m with
     | None => true
     | Some v => Input_eqb String.eqb (i_sd s) v
     end.

(** Some element of the [slice] array satisfies all conditions. *)
Definition elem_match (m : ElemMatch) (d : Document) : bool :=
  match i_slice d with
  | Given slices => existsb (slice_satisfies m) slices
  | _ => false
  end.

Definition name_matches (atoms : list PCRE.Atom) (d : Document) : bool :=
  match i_name d with
  | Given n => PCRE.search true atoms n
  | _ => false
  end.

Definition selects (atoms : option (list PCRE.Atom)) (m : option ElemMatch)
    (d : Document) : bool :=
  match atoms with
  | Some a => name_matches a d
  | None => true
  end
  && match m with
     | Some em => elem_match em d
     | None => true
     end.

(** [find(query)]: the selected documents in storage order; [None] when
    the name pattern is outside the modelled fragment of PCRE. *)
Definition find (q : Query) (c : Collection) : option (list Document) :=
  match q_name_regex q with
  | None => Some (filter (selects None (q_slice q)) (documents c))
  | Some pattern =>
      match PCRE.compile pattern with
      | None => None
      | Some atoms => Some (filter (selects (Some atoms) (q_slice q)) (documents c))
      end
  end.

Definition skip (n : Z) (docs : list Document) : list Document :=
  skipn (Z.to_nat n) docs.

(** A limit of 0 is no limit. *)
Definition limit (n : Z) (docs : list Document) : list Document :=
  if Z.eqb n 0 then docs else firstn (Z.to_nat (Z.abs n)) docs.

End Mongo.

(* ================================================================== *)
(** ** services/mongodb.py *)

Module Service.
Import Mongo.

(** The mutable part of [MongoDBService]. *)
Record MongoDBService := {
  _indexes_initialized : bool
}.

(** What a request can read and change: the service object, the
    collection behind it, and the process-wide source of [ObjectId]s. *)
Record World := {
  service : MongoDBService;
  subscribers : Collection;
  object_ids : ObjectIdGen
}.

(** [_ensure_indexes]: once the index was created the flag short-cuts;
    a failed creation is logged and swallowed, and the flag stays
    unset. *)
Definition _ensure_indexes (self : MongoDBService) (collection : Collection)
  : MongoDBService * Collection :=
  if _indexes_initialized self then (self, collection)
  else
    match create_index collection with
    | inr collection' => ({| _indexes_initialized := true |}, collection')
    | inl _ => (self, collection)
    end.

(** [get_subscriber_collection] *)
Definition get_subscriber_collection (w : World) : World :=
  let (self, collection) := _ensure_indexes (service w) (subscribers w) in
  {| service := self; subscribers := collection; object_ids := object_ids w |}.

End Service.

(* ================================================================== *)
(** ** routers/core/subscribers.py *)

Module Subscribers.
Import Models Mongo Service.

Inductive Exception : Type :=
| MongoError (e : Mongo.Error)
| PydanticValidationError (errors : list ErrorDetail).

(** How a request ends: the handler returns a body that is sent with the
    route's status code, raises [HTTPException], is not run because the
    request did not validate (422), or lets an exception escape (500). *)
Inductive Outcome (A : Type) : Type :=
| Respond (status_code : Z) (body : A)
| HTTPException (status_code : Z) (detail : string)
| RequestValidationError (errors : list ErrorDetail)
| Unhandled (e : Exception).
Arguments Respond {A} status_code body.
Arguments HTTPException {A} status_code detail.
Arguments RequestValidationError {A} errors.
Arguments Unhandled {A} e.

Definition HTTP_200_OK : Z := 200.
Definition HTTP_201_CREATED : Z := 201.
Definition HTTP_404_NOT_FOUND : Z := 404.
Definition HTTP_409_CONFLICT : Z := 409.

(** The body of the delete and update replies. *)
Record StatusMessage := {
  status : string;
  message : string
}.

(** The state a handler body works on: the collection it was given and
    the source of [ObjectId]s. *)
Definition Store : Type := Collection * ObjectIdGen.

(** *** [get_subscribers] *)

Definition build_query (name : option string) (sst : option Z) (sd : option string)
  : Query :=
  {| q_name_regex :=
       match name with
       | Some n => if Text.truthy n then Some n else None
       | None => None
       end;
     q_slice :=
       match sst with
       | Some x =>
           Some {| em_sst := x;
                   em_sd := match sd with
                            | Some v => if Text.truthy v then Some v else None
                            | None => None
                            end |}
       | None => None
       end |}.

(** The loop over the cursor: each document is validated in turn, and
    the first that does not validate raises. *)
Fixpoint validate_documents (docs : list Document) (g : ObjectIdGen)
  : (list ErrorDetail + list SubscriberSchema) * ObjectIdGen :=
  match docs with
  | [] => (inr [], g)
  | d :: rest =>
      let (v, g1) := SubscriberSchema_model_validate d g in
      match v with
      | ValidationError es => (inl es, g1)
      | Valid m =>
          let (r, g2) := validate_documents rest g1 in
          (match r with
           | inl es => inl es
           | inr ms => inr (m :: ms)
           end, g2)
      end
  end.

(** The handler body.  [None]: the name filter is a pattern outside the
    modelled fragment of PCRE. *)
Definition get_subscribers (name : option string) (sst : option Z) (sd : option string)
    (limit offset : Z) (st : Store)
  : option (Outcome (list SubscriberSchema) * Store) :=
  let (collection, g) := st in
  let query := build_query name sst sd in
  match find query collection with
  | None => None
  | Some found =>
      let cursor := Mongo.limit limit (Mongo.skip offset found) in
      let (r, g') := validate_documents cursor g in
      Some (match r with
            | inr subscribers => Respond HTTP_200_OK subscribers
            | inl es => Unhandled (PydanticValidationError es)
            end, (collection, g'))
  end.

(** *** [create_subscriber] *)

Definition create_subscriber (subscriber_data : SubscriberSchema) (st : Store)
  : Outcome SubscriberSchema * Store :=
  let (collection, g) := st in
  let subscriber_dict := SubscriberSchema_model_dump true subscriber_data in
  match insert_one subscriber_dict g collection with
  | (inr inserted_id, g1, collection') =>
      let subscriber_dict' :=
        set_id (Given (StrId (PyObjectId inserted_id))) subscriber_dict in
      let (v, g2) := SubscriberSchema_model_validate subscriber_dict' g1 in
      (match v with
       | Valid created_subscriber => Respond HTTP_201_CREATED created_subscriber
       | ValidationError es => Unhandled (PydanticValidationError es)
       end, (collection', g2))
  | (inl DuplicateKeyError, g1, collection') =>
      (HTTPException HTTP_409_CONFLICT
         ("Subscriber with IMSI " ++ imsi subscriber_data ++ " already exists"),
       (collection', g1))
  | (inl e, g1, collection') => (Unhandled (MongoError e), (collection', g1))
  end.

(** *** [delete_subscriber] *)

Definition delete_subscriber (imsi : string) (st : Store)
  : Outcome StatusMessage * Store :=
  let (collection, g) := st in
  let (delete_result, collection') := delete_one imsi collection in
  if Z.eqb (deleted_count delete_result) 1 then
    (Respond HTTP_200_OK
       {| status := "success"; message := "Subscriber " ++ imsi ++ " deleted" |},
     (collection', g))
  else
    (HTTPException HTTP_404_NOT_FOUND ("Subscriber with IMSI " ++ imsi ++ " not found"),
     (collection', g)).

(** *** [update_subscriber] *)

Definition update_subscriber (imsi : string) (updated_data : SubscriberSchema)
    (st : Store) : Outcome StatusMessage * Store :=
  let (collection, g) := st in
  let update_dict := set_imsi imsi (SubscriberSchema_model_dump false updated_data) in
  match replace_one imsi update_dict collection with
  | inl DuplicateKeyError =>
      (HTTPException HTTP_409_CONFLICT
         ("Subscriber IMSI " ++ imsi ++ " conflicts with an existing subscriber"),
       (collection, g))
  | inl e => (Unhandled (MongoError e), (collection, g))
  | inr (result, collection') =>
      if Z.eqb (matched_count result) 0 then
        (HTTPException HTTP_404_NOT_FOUND
           ("Subscriber with IMSI " ++ imsi ++ " not found"),
         (collection', g))
      else
        (Respond HTTP_200_OK
           {| status := "success"; message := "Subscriber " ++ imsi ++ " updated" |},
         (collection', g))
  end.

(** *** The routes

    Before a handler body runs, the [Depends(get_subscriber_collection)]
    dependency is resolved (which ensures the index) and the query
    parameters and the body are validated. *)

Definition store_of (w : World) : Store := (subscribers w, object_ids w).

Definition world_of (w : World) (st : Store) : World :=
  {| service := service w; subscribers := fst st; object_ids := snd st |}.

Definition ge (bound : Z) (name : string) (x : Z) : list ErrorDetail :=
  if Z.leb bound x then []
  else [{| loc := [Key "query"; Key name]; kind := value_error "greater_than_equal" |}].

(** [GET /core/subscribers]; [limit: int = Query(100, ge=1)],
    [offset: int = Query(0, ge=0)]. *)
Definition GET_subscribers (name : option string) (sst : option Z) (sd : option string)
    (limit offset : option Z) (w : World)
  : option (Outcome (list SubscriberSchema) * World) :=
  let w1 := get_subscriber_collection w in
  let limit' := match limit with Some n => n | None => 100%Z end in
  let offset' := match offset with Some n => n | None => 0%Z end in
  match (ge 1 "limit" limit' ++ ge 0 "offset" offset')%list with
  | [] =>
      match get_subscribers name sst sd limit' offset' (store_of w1) with
      | Some (r, st) => Some (r, world_of w1 st)
      | None => None
      end
  | errors => Some (RequestValidationError errors, w1)
  end.

(** [POST /core/subscribers] *)
Definition POST_subscribers (body : SubscriberInput) (w : World)
  : Outcome SubscriberSchema * World :=
  let w1 := get_subscriber_collection w in
  let (v, g) := SubscriberSchema_model_validate body (object_ids w1) in
  match v with
  | ValidationError es =>
      (RequestValidationError (map (fun e => {| loc := Key "body" :: loc e; kind := kind e |}) es),
       world_of w1 (subscribers w1, g))
  | Valid subscriber_data =>
      let (r, st) := create_subscriber subscriber_data (subscribers w1, g) in
      (r, world_of w1 st)
  end.

(** [DELETE /core/subscribers/{imsi}] *)
Definition DELETE_subscriber (imsi : string) (w : World) : Outcome StatusMessage * World :=
  let w1 := get_subscriber_collection w in
  let (r, st) := delete_subscriber imsi (store_of w1) in
  (r, world_of w1 st).

(** [PUT /core/subscribers/{imsi}] *)
Definition PUT_subscriber (imsi : string) (body : SubscriberInput) (w : World)
  : Outcome StatusMessage * World :=
  let w1 := get_subscriber_collection w in
  let (v, g) := SubscriberSchema_model_validate body (object_ids w1) in
  match v with
  | ValidationError es =>
      (RequestValidationError (map (fun e => {| loc := Key "body" :: loc e; kind := kind e |}) es),
       world_of w1 (subscribers w1, g))
  | Valid updated_data =>
      let (r, st) := update_subscriber imsi updated_data (subscribers w1, g) in
      (r, world_of w1 st)
  end.

End Subscribers.

(* ================================================================== *)
(** ** routers/core/proxy.py *)

Module Proxy.

(** The exceptions of httpx that a request can raise. *)
Inductive HttpxError : Type :=
| ConnectTimeout | ReadTimeout | WriteTimeout | PoolTimeout
| ConnectError | ReadError | WriteError | CloseError
| LocalProtocolError | RemoteProtocolError
| ProxyError | UnsupportedProtocol | DecodingError | TooManyRedirects.

(** What the body of the [try] can raise, with the exception's text.
    All of them derive from [Exception]. *)
Inductive Raised : Type :=
| Httpx (cls : HttpxError) (text : string)
| JSONDecodeError (text : string)
| OtherException (class_name text : string).

(** [isinstance(exc, TimeoutException)] *)
Definition isinstance_TimeoutException (exc : Raised) : bool :=
  match exc with
  | Httpx (ConnectTimeout | ReadTimeout | WriteTimeout | PoolTimeout) _ => true
  | _ => false
  end.

(** [isinstance(exc, ConnectError)] *)
Definition isinstance_ConnectError (exc : Raised) : bool :=
  match exc with
  | Httpx ConnectError _ => true
  | _ => false
  end.

Definition dict : Type := list (string * string).

Record Request := {
  method : string;
  url : string;
  params : option dict;
  headers : option dict;
  (** seconds *)
  timeout : Z
}.

Record Response := {
  status_code : Z;
  content : string
}.

Inductive Reply : Type :=
| Responds (r : Response)
| Fails (exc : Raised).

(** The network as the proxy sees it: what the n-th request sent would
    meet, and the requests sent so far. *)
Record Network := {
  reply_to : nat -> Request -> Reply;
  sent : list Request
}.

(** [AsyncClient(timeout=t).request(method, url, params, headers)]:
    one request goes out. *)
Definition AsyncClient_request (t : Z) (m u : string) (p h : option dict) (net : Network)
  : (Raised + Response) * Network :=
  let rq := {| method := m; url := u; params := p; headers := h; timeout := t |} in
  (match reply_to net (List.length (sent net)) rq with
   | Responds r => inr r
   | Fails exc => inl exc
   end,
   {| reply_to := reply_to net; sent := (sent net ++ [rq])%list |}).

Definition error_body (error detail : string) : JSON :=
  JObject [("error", JString error); ("detail", JString detail)].

Section WithDecoder.

(** The JSON decoder behind [response.json()]. *)
Variable json_loads : string -> option JSON.

Definition Response_json (r : Response) : Raised + JSON :=
  match json_loads (content r) with
  | Some data => inr data
  | None => inl (JSONDecodeError "Expecting value")
  end.

Definition proxy_request (destination_url method : string) (params headers : option dict)
    (net : Network) : (JSON * Z) * Network :=
  let (attempt, net') :=
    AsyncClient_request 5 method destination_url params headers net in
  let tried : Raised + (JSON * Z) :=
    match attempt with
    | inl exc => inl exc
    | inr response =>
        match Response_json response with
        | inl exc => inl exc
        | inr data => inr (data, status_code response)
        end
    end in
  (match tried with
   | inr result => result
   | inl exc =>
       if isinstance_TimeoutException exc then
         (error_body "Gateway timeout"
            ("Backend " ++ destination_url ++ " did not respond in time"), 504%Z)
       else if isinstance_ConnectError exc then
         (error_body "Bad gateway" ("Could not connect to " ++ destination_url), 502%Z)
       else
         (error_body "Bad gateway" "Unexpected error contacting backend", 502%Z)
   end, net').

(** The three routes; [query_params] and [request_headers] are those
    of the inbound request. *)
Definition get_enb_info (query_params request_headers : dict) :=
  proxy_request "http://mme:9091/enb-info" "GET" (Some query_params) (Some request_headers).

Definition get_ue_info (query_params request_headers : dict) :=
  proxy_request "http://mme:9091/ue-info" "GET" (Some query_params) (Some request_headers).

Definition get_pdu_info (query_params request_headers : dict) :=
  proxy_request "http://smf:9091/pdu-info" "GET" (Some query_params) (Some request_headers).

End WithDecoder.

End Proxy.

(* ================================================================== *)
(** ** The vocabulary of the specification *)

Module Spec.
Import Models.

Definition decimal_digit (c : ascii) : Prop := In c (Text.chars "0123456789").

Definition hex_char (c : ascii) : Prop := In c (Text.chars "0123456789abcdefABCDEF").

(** [n] characters, all hexadecimal. *)
Definition hex_of_length (n : nat) (s : string) : Prop :=
  String.length s = n /\ Forall hex_char (Text.chars s).

(** White space as in Python's [string.whitespace]: space, tab, line
    feed, vertical tab, form feed, carriage return. *)
Definition is_whitespace (c : ascii) : bool :=
  existsb (Nat.eqb (Text.code c)) [32; 9; 10; 11; 12; 13].

(** "whitespace is stripped from the hex fields" *)
Fixpoint strip_whitespace (s : string) : string :=
  match s with
  | EmptyString => EmptyString
  | String c rest =>
      if is_whitespace c then strip_whitespace rest
      else String c (strip_whitespace rest)
  end.

(** A key counts as present when it holds a value. *)
Definition present {A} (i : Input A) : Prop :=
  match i with
  | Given _ => True
  | _ => False
  end.

(** The hex text a field holds, once [strip] was applied, has [n]
    hexadecimal characters. *)
Definition holds_hex (strip : string -> string) (n : nat) (i : Input string) : Prop :=
  match i with
  | Given s => hex_of_length n (strip s)
  | _ => False
  end.

(** The acceptance condition on credentials, for a given way of
    stripping: [k] is 32 hex characters, [amf] (["8000"] when the key
    is missing) is 4, and exactly one of [op] and [opc] is present and
    is 32 hex characters. *)
Definition credentials_acceptable (strip : string -> string) (raw : SecurityInput) : Prop :=
  holds_hex strip 32 (i_k raw)
  /\ (i_amf raw = Absent \/ holds_hex strip 4 (i_amf raw))
  /\ ((holds_hex strip 32 (i_op raw) /\ ~ present (i_opc raw))
      \/ (holds_hex strip 32 (i_opc raw) /\ ~ present (i_op raw))).

(** The boolean the validator computes on a hex field. *)
Definition hex_given (n : nat) (i : Input string) : bool :=
  match i with
  | Given s => Pattern.match_bounded (Text.in_class Pattern.hex) n n (clean_hex_spaces s)
  | _ => false
  end.

Definition not_given {A} (i : Input A) : bool :=
  match i with
  | Given _ => false
  | _ => true
  end.

(** [s] occurs in [n], letter case ignored. *)
Definition contains_caseless (s n : string) : Prop :=
  exists before middle after,
    n = (before ++ middle ++ after)%string
    /\ Text.lower_string middle = Text.lower_string s.

(** The record has a slice whose [sst] is [x]. *)
Definition has_slice_with_sst (x : Z) (d : Mongo.Document) : Prop :=
  exists slices s,
    i_slice d = Given slices /\ In s slices /\ i_sst s = Given x.

Definition has_name_containing (s : string) (d : Mongo.Document) : Prop :=
  exists n, i_name d = Given n /\ contains_caseless s n.

(** The stored document is a valid subscriber: reading it back
    succeeds. *)
Definition validates (d : Mongo.Document) : Prop :=
  forall g, V.is_valid (fst (SubscriberSchema_model_validate d g)) = true.

(** [m] is the subscriber the stored document [d] is read back as. *)
Definition reads_as (d : Mongo.Document) (m : SubscriberSchema) : Prop :=
  exists g, fst (SubscriberSchema_model_validate d g) = Valid m.

(** The documents with another IMSI than [x], in storage order. *)
Definition others (x : string) (docs : list Mongo.Document) : list Mongo.Document :=
  filter (fun d => negb (Mongo.imsi_is x d)) docs.

(** [chosen] is made of exactly the documents of [docs] that satisfy
    [P], in the order of [docs]. *)
Inductive selection (P : Mongo.Document -> Prop)
  : list Mongo.Document -> list Mongo.Document -> Prop :=
| selection_nil : selection P [] []
| selection_keep d docs chosen :
    P d -> selection P docs chosen -> selection P (d :: docs) (d :: chosen)
| selection_drop d docs chosen :
    ~ P d -> selection P docs chosen -> selection P (d :: docs) chosen.

End Spec.

(* ================================================================== *)
(** ** Sample requests and stores *)

Module Samples.
Import Models Mongo Service.

(** [{}]: a session with every key left to its default. *)
Definition session_input : SessionInput :=
  {| i_session_name := Absent; i_session_type := Absent; i_qos := Absent;
     i_session_ambr := Absent; i_ue := Absent; i_pcc_rule := Absent;
     i_lbo_roaming_allowed := Absent; i_session_id := Absent |}.

Definition slice_input (x : Z) (sessions : Input (list SessionInput)) : SliceInput :=
  {| i_sst := Given x; i_sd := Given "000001"; i_default_indicator := Given true;
     i_session := sessions; i_slice_id := Absent |}.

Definition key_k : string := "465B5CE8B199B49FAA5F0A2EE238A6BC".
Definition key_opc : string := "E8ED289DEBA952E4283B54E88E6183CA".

Definition security_input : SecurityInput :=
  {| i_k := Given key_k; i_amf := Given "8000"; i_op := Absent; i_opc := Given key_opc |}.

Definition subscriber_input (x : string) (n : Input string)
    (slices : Input (list SliceInput)) : SubscriberInput :=
  {| i_id := Absent; i_schema_version := Absent; i_imsi := Given x; i_name := n;
     i_msisdn := Absent; i_imeisv := Absent; i_mme_host := Absent; i_mm_realm := Absent;
     i_purge_flag := Absent; i_slice := slices; i_security := Given security_input;
     i_ambr := Absent; i_access_restriction_data := Absent;
     i_network_access_mode := Absent; i_subscriber_status := Absent;
     i_operator_determined_barring := Absent; i_subscribed_rau_tau_timer := Absent;
     i_v := Absent |}.

Definition imsi_1 : string := "001010000000001".
Definition imsi_2 : string := "001010000000002".

(** The minimal valid request body: one slice with one session. *)
Definition body (x : string) (n : Input string) : SubscriberInput :=
  subscriber_input x n (Given [slice_input 1 (Given [session_input])]).

(** The subscriber a body validates to ([subscriber_0] when it does
    not). *)
Definition security_0 : SecurityModel :=
  {| k := key_k; amf := "8000"; op := None; opc := Some key_opc |}.

Definition subscriber_0 : SubscriberSchema :=
  {| subscriber_id := None; schema_version := 1; imsi := imsi_1; name := None;
     msisdn := []; imeisv := []; mme_host := []; mm_realm := []; purge_flag := [];
     slice := []; security := security_0; ambr := AmbrModel_default;
     access_restriction_data := 32; network_access_mode := 0; subscriber_status := 0;
     operator_determined_barring := 0; subscribed_rau_tau_timer := 12;
     subscriber_v := 0 |}.

Definition subscriber_at (g : ObjectIdGen) (b : SubscriberInput) : SubscriberSchema :=
  match fst (SubscriberSchema_model_validate b g) with
  | Valid m => m
  | ValidationError _ => subscriber_0
  end.

Definition subscriber_of (b : SubscriberInput) : SubscriberSchema :=
  subscriber_at 0%N b.

(** A document as [create_subscriber] stores it. *)
Definition stored (oid : N) (x : string) (n : Input string) : Document :=
  set_id (Given (ObjectId oid))
    (SubscriberSchema_model_dump true (subscriber_of (body x n))).

Definition tab : ascii := ascii_of_nat 9.

(** Credentials whose [k] starts with a tab. *)
Definition security_input_tab : SecurityInput :=
  {| i_k := Given (String tab key_k); i_amf := Absent; i_op := Absent;
     i_opc := Given key_opc |}.

Definition world (docs : list Document) (index refuses initialized : bool) : World :=
  {| service := {| _indexes_initialized := initialized |};
     subscribers := {| documents := docs; imsi_unique_index := index;
                       refuses_index_builds := refuses |};
     object_ids := 1000%N |}.

(** Distinct IMSIs ["001010000000000"], ["001010000000001"], ... *)
Definition digit_of (n : nat) : ascii := ascii_of_nat (48 + Nat.modulo n 10).

Definition imsi_n (n : nat) : string :=
  "001010000000"
  ++ String (digit_of (Nat.div n 100))
       (String (digit_of (Nat.div n 10)) (String (digit_of n) EmptyString)).

(** A store of [count] subscribers, each with one slice of [sst] 1. *)
Definition store_n (count : nat) : list Document :=
  map (fun n => stored (N.of_nat n) (imsi_n n) Absent) (seq 0 count).

(** A network on which every request meets the same fate. *)
Definition network_of (reply : Proxy.Reply) : Proxy.Network :=
  {| Proxy.reply_to := fun _ _ => reply; Proxy.sent := [] |}.

(** A decoder that knows the literal [null] only; enough to run the proxy
    on the sample replies. *)
Definition decode_null (s : string) : option JSON :=
  if String.eqb s "null" then Some JNull else None.

End Samples.

(* ================================================================== *)
(** ** The shape of validated models *)

Module Shape.
Import Models.

(** What validation guarantees of credentials: hex texts of the right
    length, free of spaces, and exactly one of [op] and [opc]. *)
Definition credentials (m : SecurityModel) : Prop :=
  Spec.hex_of_length 32 (k m)
  /\ Spec.hex_of_length 4 (amf m)
  /\ ((exists o, op m = Some o /\ Spec.hex_of_length 32 o /\ opc m = None)
      \/ (exists o, opc m = Some o /\ Spec.hex_of_length 32 o /\ op m = None)).

(** What validation guarantees of a subscriber. *)
Definition subscriber (m : SubscriberSchema) : Prop :=
  ((String.length (imsi m) = 14 \/ String.length (imsi m) = 15)
   /\ Forall Spec.decimal_digit (Text.chars (imsi m)))
  /\ (forall n, name m = Some n -> String.length n <= 100)
  /\ credentials (security m).

(** A model none of whose defaulted optional fields is [None]: the
    fields that [exclude_none] would drop from the dump and that
    validation would fill in again with something else. *)
Definition complete_session (s : SessionModel) : Prop :=
  session_id s <> None /\ arp (qos s) <> None.

Definition complete_slice (s : SliceModel) : Prop :=
  sd s <> None /\ slice_id s <> None /\ Forall complete_session (session s).

Definition complete (m : SubscriberSchema) : Prop :=
  Forall complete_slice (slice m).

(** The subscriber with another [id]. *)
Definition with_id (i : option string) (m : SubscriberSchema) : SubscriberSchema :=
  {| subscriber_id := i;
     schema_version := schema_version m;
     imsi := imsi m;
     name := name m;
     msisdn := msisdn m;
     imeisv := imeisv m;
     mme_host := mme_host m;
     mm_realm := mm_realm m;
     purge_flag := purge_flag m;
     slice := slice m;
     security := security m;
     ambr := ambr m;
     access_restriction_data := access_restriction_data m;
     network_access_mode := network_access_mode m;
     subscriber_status := subscriber_status m;
     operator_determined_barring := operator_determined_barring m;
     subscribed_rau_tau_timer := subscribed_rau_tau_timer m;
     subscriber_v := subscriber_v m |}.

(** The record has a slice whose [sst] is [x] and whose [sd] is [v]. *)
Definition has_slice_with (x : Z) (v : string) (d : Mongo.Document) : Prop :=
  exists slices s,
    i_slice d = Given slices /\ In s slices /\ i_sst s = Given x /\ i_sd s = Given v.

(** The stored IMSIs, in storage order. *)
Definition keys (c : Mongo.Collection) : list (option string) :=
  map Mongo.imsi_key (Mongo.documents c).

(** The state the routes keep: the flag of the service is set only when
    the index exists, and while the index exists no two stored records
    share an IMSI. *)
Definition consistent (w : Service.World) : Prop :=
  (Service._indexes_initialized (Service.service w) = true ->
   Mongo.imsi_unique_index (Service.subscribers w) = true)
  /\ (Mongo.imsi_unique_index (Service.subscribers w) = true ->
      NoDup (keys (Service.subscribers w))).

End Shape.

(* ================================================================== *)
(** ** services/mongodb.py: the connection *)

From Stdlib Require Import Decimal DecimalString.

Module Py.

(** [str(n)] of an [int]. *)
Definition str (z : Z) : string := NilZero.string_of_int (Z.to_int z).

(** [''.join(parts)] *)
Fixpoint join (parts : list string) : string :=
  match parts with
  | [] => EmptyString
  | part :: rest => (part ++ join rest)%string
  end.

(** The string made of the characters of a list. *)
Fixpoint implode (l : list ascii) : string :=
  match l with
  | [] => EmptyString
  | c :: rest => String c (implode rest)
  end.

Fixpoint drop (n : nat) (s : string) : string :=
  match n, s with
  | O, _ => s
  | S n', String _ rest => drop n' rest
  | S _, EmptyString => EmptyString
  end.

(** [s[-n:]] for a positive [n]: the last [n] characters, or all of [s]
    when it is shorter. *)
Definition last (n : nat) (s : string) : string := drop (String.length s - n) s.

End Py.

Module Connection.

(** The connection parameters of [MongoDBService.__init__]. *)
Record Settings := {
  host : string;
  port : Z;
  database : string;
  user : option string;
  password : option string
}.

(** An [AsyncIOMotorClient]: the URI it was built with; [serial] tells one
    instance from another. *)
Record Client := {
  uri : string;
  serial : nat
}.

(** [self._client], with the number of clients built so far and the
    serials of the clients that were closed. *)
Record State := {
  _client : option Client;
  built : nat;
  closed : list nat
}.

(** [_build_uri]: the credentials are part of the URI only when [user]
    and [password] are both truthy. *)
Definition _build_uri (self : Settings) : string :=
  if Models.truthy (user self) && Models.truthy (password self) then
    "mongodb://"
    ++ match user self with Some u => u | None => "None" end
    ++ ":"
    ++ match password self with Some pw => pw | None => "None" end
    ++ "@" ++ host self ++ ":" ++ Py.str (port self) ++ "/"
  else "mongodb://" ++ host self ++ ":" ++ Py.str (port self) ++ "/".

(** [get_client]: the client is built on the first call and kept. *)
Definition get_client (self : Settings) (st : State) : Client * State :=
  match _client st with
  | Some c => (c, st)
  | None =>
      let c := {| uri := _build_uri self; serial := built st |} in
      (c, {| _client := Some c; built := S (built st); closed := closed st |})
  end.

(** [close]: closes the client, if any, and forgets it. *)
Definition close (st : State) : State :=
  match _client st with
  | Some c => {| _client := None; built := built st; closed := serial c :: closed st |}
  | None => st
  end.

End Connection.

(* ================================================================== *)
(** ** scripts/test_subscribers.py *)

Module Script.
Import Models.

(** The [random] module as the script uses it: the n-th value drawn is
    [draw n], reduced to the range asked for. *)
Definition randint (lo hi : Z) (raw : nat) : Z :=
  (lo + Z.of_nat raw mod (hi - lo + 1))%Z.

Definition choice (alphabet : string) (raw : nat) : ascii :=
  nth (Nat.modulo raw (String.length alphabet)) (Text.chars alphabet) "0"%char.

Definition ambr_1_gbps : AmbrInput :=
  {| i_downlink := Given {| i_ambr_value := Given 1%Z; i_ambr_unit := Given 3%Z |};
     i_uplink := Given {| i_ambr_value := Given 1%Z; i_ambr_unit := Given 3%Z |} |}.

(** [generate_subscriber(name)]; [now_ms] is [int(time.time() * 1000)]
    and [draw] the random source.  The IMSI is the last 10 digits of the
    clock followed by 5 random digits; [k] and [opc] are 32 random upper
    case hex digits each. *)
Definition generate_subscriber (name : string) (now_ms : Z) (draw : nat -> nat)
  : SubscriberInput :=
  let timestamp_part := Py.last 10 (Py.str now_ms) in
  let random_part :=
    Py.join (map (fun n => Py.str (randint 0 9 (draw n))) (seq 0 5)) in
  let imsi := (timestamp_part ++ random_part)%string in
  let k := Py.implode (map (fun n => choice "0123456789ABCDEF" (draw n)) (seq 5 32)) in
  let opc := Py.implode (map (fun n => choice "0123456789ABCDEF" (draw n)) (seq 37 32)) in
  {| i_id := Absent;
     i_schema_version := Given 1%Z;
     i_imsi := Given imsi;
     i_name := Given name;
     i_msisdn := Absent;
     i_imeisv := Absent;
     i_mme_host := Absent;
     i_mm_realm := Absent;
     i_purge_flag := Absent;
     i_slice :=
       Given
         [{| i_sst := Given 1%Z;
             i_sd := Given "000001";
             i_default_indicator := Given true;
             i_session :=
               Given
                 [{| i_session_name := Given "internet";
                     i_session_type := Given 3%Z;
                     i_qos :=
                       Given
                         {| i_qos_index := Given 9%Z;
                            i_arp :=
                              Given
                                {| i_priority_level := Given 8%Z;
                                   i_pre_emption_capability := Given 1%Z;
                                   i_pre_emption_vulnerability := Given 2%Z |} |};
                     i_session_ambr := Given ambr_1_gbps;
                     i_ue := Absent;
                     i_pcc_rule := Given [];
                     i_lbo_roaming_allowed := Absent;
                     i_session_id := Absent |}];
             i_slice_id := Absent |}];
     i_security :=
       Given {| i_k := Given k; i_amf := Given "8000"; i_op := Absent;
                i_opc := Given opc |};
     i_ambr := Given ambr_1_gbps;
     i_access_restriction_data := Given 32%Z;
     i_network_access_mode := Given 0%Z;
     i_subscriber_status := Given 0%Z;
     i_operator_determined_barring := Given 0%Z;
     i_subscribed_rau_tau_timer := Given 12%Z;
     i_v := Absent |}.

End Script.

(* ================================================================== *)
(** * Properties *)

(** ** Validation results *)

Lemma is_valid_under {A} (item : LocItem) (v : Validated A) :
  V.is_valid (V.under item v) = V.is_valid v.
Proof. destruct v; reflexivity. Qed.

Lemma is_valid_field {A} (name : string) (v : Validated A) :
  V.is_valid (Models.field name v) = V.is_valid v.
Proof. apply is_valid_under. Qed.

Lemma is_valid_ap {A B} (vf : Validated (A -> B)) (va : Validated A) :
  V.is_valid (vf <*> va) = V.is_valid vf && V.is_valid va.
Proof. destruct vf, va; reflexivity. Qed.

Lemma is_valid_false {A} (v : Validated A) :
  V.is_valid v = false -> exists es, v = ValidationError es.
Proof. destruct v as [a | es]; [discriminate | eauto]. Qed.

Lemma is_valid_true {A} (v : Validated A) :
  V.is_valid v = true -> exists a, v = Valid a.
Proof. destruct v as [a | es]; [eauto | discriminate]. Qed.

(** ** Field patterns *)

Lemma chars_length (s : string) : List.length (Text.chars s) = String.length s.
Proof. induction s as [| c s IH]; simpl; congruence. Qed.

(** A bounded repetition of a class accepts exactly the texts of a length
    within the bounds whose characters are all in the class. *)
Lemma match_bounded_iff (cls : ascii -> bool) (s : string) : forall lo hi,
  Pattern.match_bounded cls lo hi s = true <->
  lo <= String.length s <= hi /\ forallb cls (Text.chars s) = true.
Proof.
  induction s as [| c s IH]; intros lo hi; simpl.
  - destruct lo; simpl; intuition (try lia; try discriminate).
  - destruct hi as [| hi].
    + split; [discriminate | lia].
    + rewrite !andb_true_iff, IH. destruct lo; simpl; intuition (try lia).
Qed.

Lemma digit_class (c : ascii) :
  Text.in_class Pattern.digit c = true <-> Spec.decimal_digit c.
Proof.
  unfold Spec.decimal_digit.
  destruct c as [[] [] [] [] [] [] [] []]; vm_compute;
    (split; [intros H; try discriminate H; tauto | intros H; try reflexivity]);
    repeat (destruct H as [H | H]; [discriminate H |]); destruct H.
Qed.

Lemma hex_class (c : ascii) :
  Text.in_class Pattern.hex c = true <-> Spec.hex_char c.
Proof.
  unfold Spec.hex_char.
  destruct c as [[] [] [] [] [] [] [] []]; vm_compute;
    (split; [intros H; try discriminate H; tauto | intros H; try reflexivity]);
    repeat (destruct H as [H | H]; [discriminate H |]); destruct H.
Qed.

Lemma forallb_class (ranges : list (ascii * ascii)) (P : ascii -> Prop) :
  (forall c, Text.in_class ranges c = true <-> P c) ->
  forall l, forallb (Text.in_class ranges) l = true <-> Forall P l.
Proof.
  intros HP l. rewrite forallb_forall, Forall_forall.
  split; intros H c Hc; apply HP, H, Hc.
Qed.

Lemma ImsiStr_pattern_iff (s : string) :
  Pattern.matches Models.ImsiStr_pattern s = true <->
  (String.length s = 14 \/ String.length s = 15) /\ Forall Spec.decimal_digit (Text.chars s).
Proof.
  unfold Pattern.matches. simpl.
  rewrite match_bounded_iff, (forallb_class _ _ digit_class). intuition lia.
Qed.

Lemma hex_pattern_iff (n : nat) (s : string) :
  Pattern.match_bounded (Text.in_class Pattern.hex) n n s = true <-> Spec.hex_of_length n s.
Proof.
  unfold Spec.hex_of_length.
  rewrite match_bounded_iff, (forallb_class _ _ hex_class). intuition lia.
Qed.

Lemma is_valid_constrained (p : Pattern.t) (s : string) :
  V.is_valid (Models.constrained p s) = Pattern.matches p s.
Proof. unfold Models.constrained. destruct (Pattern.matches p s); reflexivity. Qed.

(** ** IMSI *)

Section Imsi.
Import Models.

Lemma invalid_imsi_rejects (raw : SubscriberInput) (g : ObjectIdGen) (s : string) :
  i_imsi raw = Given s ->
  Pattern.matches ImsiStr_pattern s = false ->
  V.is_valid (fst (SubscriberSchema_model_validate raw g)) = false.
Proof.
  intros Hi Hp. unfold SubscriberSchema_model_validate.
  destruct (required_items SliceModel_validate (i_slice raw) g) as [vslice g'].
  cbn [fst]. rewrite !is_valid_ap, !is_valid_field, Hi.
  cbn [V.required]. unfold ImsiStr. rewrite is_valid_constrained, Hp.
  repeat (rewrite andb_false_r; cbn [andb]). reflexivity.
Qed.

(** C6.  [ImsiStr] accepts a string exactly when it has 14 or 15
    characters, all of them decimal digits; a subscriber whose [imsi] is
    any other string fails to validate. *)
Theorem imsi_validation (s : string) :
  (V.is_valid (ImsiStr s) = true <->
     (String.length s = 14 \/ String.length s = 15)
     /\ Forall Spec.decimal_digit (Text.chars s))
  /\ (forall (raw : SubscriberInput) (g : ObjectIdGen),
        i_imsi raw = Given s ->
        ~ ((String.length s = 14 \/ String.length s = 15)
           /\ Forall Spec.decimal_digit (Text.chars s)) ->
        exists es, fst (SubscriberSchema_model_validate raw g) = ValidationError es).
Proof.
  split.
  - unfold ImsiStr. rewrite is_valid_constrained. apply ImsiStr_pattern_iff.
  - intros raw g Hi Hn. apply is_valid_false.
    apply (invalid_imsi_rejects raw g s Hi).
    destruct (Pattern.matches ImsiStr_pattern s) eqn:E; [| reflexivity].
    apply ImsiStr_pattern_iff in E. contradiction.
Qed.

End Imsi.

(** ** Security credentials *)

Section Security.
Import Models.

(** A text the 32- or 4-character hex pattern accepts is not empty. *)
Lemma hex_pattern_truthy (n : nat) (s : string) :
  Pattern.match_bounded (Text.in_class Pattern.hex) (S n) (S n) s = true ->
  Text.truthy s = true.
Proof. destruct s; [discriminate | reflexivity]. Qed.

Lemma SecurityModel_validate_bool (raw : SecurityInput) :
  V.is_valid (SecurityModel_validate raw) =
  Spec.hex_given 32 (i_k raw)
  && (match i_amf raw with Absent => true | _ => Spec.hex_given 4 (i_amf raw) end)
  && ((Spec.hex_given 32 (i_op raw) && Spec.not_given (i_opc raw))
      || (Spec.hex_given 32 (i_opc raw) && Spec.not_given (i_op raw))).
Proof.
  destruct raw as [ik iamf iop iopc].
  unfold SecurityModel_validate, Hex32Str, Hex4Str, constrained, Pattern.matches.
  cbn [i_k i_amf i_op i_opc Hex32Str_pattern Hex4Str_pattern
       Pattern.class Pattern.min_repeat Pattern.max_repeat].
  destruct ik as [| | sk], iamf as [| | sa], iop as [| | so], iopc as [| | sc];
    cbn [Spec.hex_given Spec.not_given V.required V.defaulted V.optional];
    repeat match goal with
      | |- context [Pattern.match_bounded ?c ?n ?m ?s] =>
          let E := fresh "E" in
          destruct (Pattern.match_bounded c n m s) eqn:E;
          [ try (apply hex_pattern_truthy in E) | ]
      end;
    cbn; rewrite ?andb_false_r; try reflexivity;
    unfold check_op_or_opc, truthy; cbn [op opc];
    repeat match goal with
      | E : Text.truthy _ = true |- _ => rewrite E; clear E
      end;
    cbn; reflexivity.
Qed.

Lemma hex_given_iff (n : nat) (i : Input string) :
  Spec.hex_given n i = true <-> Spec.holds_hex clean_hex_spaces n i.
Proof.
  destruct i as [| | s]; cbn; try (split; [discriminate | tauto]).
  apply hex_pattern_iff.
Qed.

Lemma not_given_iff {A} (i : Input A) : Spec.not_given i = true <-> ~ Spec.present i.
Proof. destruct i; cbn; intuition discriminate. Qed.

End Security.

Section SecurityClaims.
Import Models.

(** C3, as the code has it.  [SecurityModel] validates exactly when, once
    the space characters are removed from the hex fields, [k] is 32 hex
    characters, [amf] (["8000"] when the key is missing) is 4 hex
    characters, and exactly one of [op] and [opc] is present and is 32 hex
    characters; both, or neither, is a validation failure. *)
Theorem security_credentials_validation (raw : SecurityInput) :
  V.is_valid (SecurityModel_validate raw) = true <->
  Spec.credentials_acceptable clean_hex_spaces raw.
Proof.
  rewrite SecurityModel_validate_bool. unfold Spec.credentials_acceptable.
  rewrite !andb_true_iff, orb_true_iff, !andb_true_iff,
    !hex_given_iff, !not_given_iff.
  assert (Hamf : (match i_amf raw with
                  | Absent => true
                  | _ => Spec.hex_given 4 (i_amf raw)
                  end) = true
                 <-> i_amf raw = Absent \/ Spec.holds_hex clean_hex_spaces 4 (i_amf raw)).
  { rewrite <- hex_given_iff.
    destruct (i_amf raw); cbn; intuition (discriminate || auto). }
  rewrite Hamf. tauto.
Qed.

(** C3, as stated, fails: with all white space stripped, a [k] that starts
    with a tab would be 32 hex characters, but only spaces are removed and
    the credentials are rejected. *)
Lemma security_tab_rejected :
  Spec.credentials_acceptable Spec.strip_whitespace Samples.security_input_tab
  /\ V.is_valid (SecurityModel_validate Samples.security_input_tab) = false.
Proof.
  split; [| vm_compute; reflexivity].
  unfold Spec.credentials_acceptable, Samples.security_input_tab.
  cbn [i_k i_amf i_op i_opc Spec.holds_hex Spec.present].
  split; [| split].
  - apply hex_pattern_iff. vm_compute. reflexivity.
  - left. reflexivity.
  - right. split; [| tauto]. apply hex_pattern_iff. vm_compute. reflexivity.
Qed.

(** Spaces inside the hex fields are tolerated. *)
Example security_spaces_accepted :
  V.is_valid
    (SecurityModel_validate
       {| i_k := Given "465B 5CE8 B199 B49F AA5F 0A2E E238 A6BC";
          i_amf := Given "80 00"; i_op := Null;
          i_opc := Given Samples.key_opc |}) = true.
Proof. vm_compute. reflexivity. Qed.

(** Both [op] and [opc], or neither, is refused. *)
Example security_both_refused :
  SecurityModel_validate
    {| i_k := Given Samples.key_k; i_amf := Absent;
       i_op := Given Samples.key_opc; i_opc := Given Samples.key_opc |}
  = V.fail (value_error "Provide either OP or OPC, not both.")
  /\ SecurityModel_validate
       {| i_k := Given Samples.key_k; i_amf := Absent; i_op := Absent; i_opc := Null |}
     = V.fail (value_error "Provide at least one: OP or OPC.").
Proof. split; vm_compute; reflexivity. Qed.

End SecurityClaims.

(** ** The index is ensured without touching the documents *)

Section Ensuring.
Import Mongo Service.

Lemma ensure_indexes_documents (self : MongoDBService) (c : Collection) :
  documents (snd (_ensure_indexes self c)) = documents c.
Proof.
  unfold _ensure_indexes, create_index.
  destruct (_indexes_initialized self); [reflexivity |].
  destruct (refuses_index_builds c); [reflexivity |].
  destruct (imsi_unique_index c); [reflexivity |].
  destruct (has_duplicates (map imsi_key (documents c))); reflexivity.
Qed.

Lemma get_subscriber_collection_documents (w : World) :
  documents (subscribers (get_subscriber_collection w)) = documents (subscribers w).
Proof.
  unfold get_subscriber_collection.
  pose proof (ensure_indexes_documents (service w) (subscribers w)) as H.
  destruct (_ensure_indexes (service w) (subscribers w)) as [self c]. exact H.
Qed.

End Ensuring.

(** ** Slices and sessions *)

Section Slices.
Import Models.

Lemma validate_items_rejects {A B}
    (item : A -> ObjectIdGen -> Validated B * ObjectIdGen) (x : A) :
  (forall g, V.is_valid (fst (item x g)) = false) ->
  forall xs i g, In x xs -> V.is_valid (fst (validate_items item i xs g)) = false.
Proof.
  intros Hx xs. induction xs as [| y ys IH]; intros i g Hin; [destruct Hin |].
  cbn [validate_items].
  destruct (item y g) as [vy g1] eqn:Ey.
  destruct (validate_items item (S i) ys g1) as [vrest g2] eqn:Er.
  cbn [fst]. rewrite !is_valid_ap, is_valid_under.
  destruct Hin as [-> | Hin].
  - specialize (Hx g). rewrite Ey in Hx. cbn [fst] in Hx. rewrite Hx. reflexivity.
  - specialize (IH (S i) g1 Hin). rewrite Er in IH. cbn [fst] in IH. rewrite IH.
    apply andb_false_r.
Qed.

Lemma required_items_rejects {A B}
    (item : A -> ObjectIdGen -> Validated B * ObjectIdGen) (i : Input (list A)) (g : ObjectIdGen) :
  ~ Spec.present i -> V.is_valid (fst (required_items item i g)) = false.
Proof. destruct i; cbn; tauto. Qed.

Lemma slice_without_session_rejects (s : SliceInput) (g : ObjectIdGen) :
  ~ Spec.present (i_session s) -> V.is_valid (fst (SliceModel_validate s g)) = false.
Proof.
  intros H. unfold SliceModel_validate.
  pose proof (required_items_rejects SessionModel_validate (i_session s) g H) as Hr.
  destruct (required_items SessionModel_validate (i_session s) g) as [vsession g1].
  destruct (object_id_factory (i_slice_id s) g1) as [vid g2].
  cbn [fst] in *. rewrite !is_valid_ap, !is_valid_field, Hr.
  repeat (rewrite andb_false_r; cbn [andb]). reflexivity.
Qed.

Lemma invalid_slices_reject (raw : SubscriberInput) (g : ObjectIdGen) :
  V.is_valid (fst (required_items SliceModel_validate (i_slice raw) g)) = false ->
  V.is_valid (fst (SubscriberSchema_model_validate raw g)) = false.
Proof.
  intros H. unfold SubscriberSchema_model_validate.
  destruct (required_items SliceModel_validate (i_slice raw) g) as [vslice g'].
  cbn [fst] in *. rewrite !is_valid_ap, !is_valid_field, H.
  repeat (rewrite andb_false_r; cbn [andb]). reflexivity.
Qed.

(** A body that does not validate is answered 422 and the stored
    documents are left as they were. *)
Lemma POST_subscribers_rejects (raw : SubscriberInput) (w : Service.World) :
  V.is_valid
    (fst (SubscriberSchema_model_validate raw
            (Service.object_ids (Service.get_subscriber_collection w)))) = false ->
  exists es w',
    Subscribers.POST_subscribers raw w = (Subscribers.RequestValidationError es, w')
    /\ Mongo.documents (Service.subscribers w') = Mongo.documents (Service.subscribers w).
Proof.
  intros H. unfold Subscribers.POST_subscribers.
  destruct (SubscriberSchema_model_validate raw
              (Service.object_ids (Service.get_subscriber_collection w))) as [v g].
  cbn [fst] in H. destruct v as [m | es]; [discriminate H |].
  do 2 eexists. split; [reflexivity |].
  cbn [Subscribers.world_of Service.subscribers fst].
  apply get_subscriber_collection_documents.
Qed.

(** C2, as the code has it.  Validation fails whenever the [slice] key is
    missing (or null), or some slice of the sequence has no [session] key;
    the create request is then answered 422 and nothing is stored.  The
    sequences themselves may be empty. *)
Theorem slice_and_session_keys_required (raw : SubscriberInput) :
  (~ Spec.present (i_slice raw)
   \/ exists slices s,
        i_slice raw = Given slices /\ In s slices /\ ~ Spec.present (i_session s)) ->
  (forall g, exists es, fst (SubscriberSchema_model_validate raw g) = ValidationError es)
  /\ (forall w, exists es w',
        Subscribers.POST_subscribers raw w = (Subscribers.RequestValidationError es, w')
        /\ Mongo.documents (Service.subscribers w')
           = Mongo.documents (Service.subscribers w)).
Proof.
  intros H.
  assert (Hinvalid : forall g,
             V.is_valid (fst (SubscriberSchema_model_validate raw g)) = false).
  { intros g. apply invalid_slices_reject.
    destruct H as [H | (slices & s & Hs & Hin & Hno)].
    - apply required_items_rejects, H.
    - rewrite Hs. cbn [required_items].
      apply (validate_items_rejects SliceModel_validate s); [| exact Hin].
      intros g0. apply slice_without_session_rejects, Hno. }
  split.
  - intros g. apply is_valid_false, Hinvalid.
  - intros w. apply POST_subscribers_rejects, Hinvalid.
Qed.

Lemma slice_and_session_keys_required_witness :
  (forall g, exists es,
     fst (SubscriberSchema_model_validate
            (Samples.subscriber_input Samples.imsi_1 Absent
               (Given [Samples.slice_input 1 Absent])) g)
     = ValidationError es)
  /\ (forall w, exists es w',
        Subscribers.POST_subscribers
          (Samples.subscriber_input Samples.imsi_1 Absent
             (Given [Samples.slice_input 1 Absent])) w
        = (Subscribers.RequestValidationError es, w')
        /\ Mongo.documents (Service.subscribers w')
           = Mongo.documents (Service.subscribers w)).
Proof.
  apply slice_and_session_keys_required.
  right. exists [Samples.slice_input 1 Absent], (Samples.slice_input 1 Absent).
  split; [reflexivity |]. split; [left; reflexivity |]. intros H. exact H.
Defined.

(** C2, as stated, fails: a subscriber with no slice at all, and one whose
    only slice has no session, are both constructed. *)
Lemma empty_slices_and_sessions_accepted :
  (exists m,
     fst (SubscriberSchema_model_validate
            (Samples.subscriber_input Samples.imsi_1 Absent (Given [])) 0%N) = Valid m
     /\ slice m = [])
  /\ (exists m s,
        fst (SubscriberSchema_model_validate
               (Samples.subscriber_input Samples.imsi_1 Absent
                  (Given [Samples.slice_input 1 (Given [])])) 0%N) = Valid m
        /\ slice m = [s] /\ session s = []).
Proof.
  split.
  - eexists. split; [vm_compute; reflexivity | reflexivity].
  - do 2 eexists. split; [vm_compute; reflexivity | split; reflexivity].
Qed.

End Slices.

(** ** The backend proxy *)

Section ProxyClaims.
Import Proxy.

Variable json_loads : string -> option JSON.

(** The request [proxy_request] sends: the arguments as given, with the
    fixed timeout of 5. *)
Lemma proxy_request_sends_once (destination_url m : string) (p h : option dict)
    (net : Network) :
  sent (snd (proxy_request json_loads destination_url m p h net))
  = (sent net ++ [{| method := m; url := destination_url; params := p;
                     headers := h; timeout := 5 |}])%list.
Proof. reflexivity. Qed.



End ProxyClaims.



(** ** Listing subscribers *)

Section Listing.
Import Models Mongo Service Subscribers.

Lemma selection_filter (P : Document -> Prop) (p : Document -> bool) :
  (forall d, p d = true <-> P d) ->
  forall docs, Spec.selection P docs (filter p docs).
Proof.
  intros Hp docs. induction docs as [| d docs IH]; cbn [filter].
  - constructor.
  - destruct (p d) eqn:E.
    + apply Spec.selection_keep; [apply Hp, E | exact IH].
    + apply Spec.selection_drop; [| exact IH].
      intros HP. apply Hp in HP. congruence.
Qed.

Lemma Forall_firstn_filter {A} (P : A -> Prop) (p : A -> bool) (n : nat) (l : list A) :
  Forall P l -> Forall P (firstn n (filter p l)).
Proof.
  rewrite !Forall_forall. intros H x Hx. apply H.
  assert (Hin : In x (filter p l)).
  { revert Hx. generalize (filter p l). clear. intros l. revert n.
    induction l as [| a l IH]; intros [| n]; cbn; try tauto.
    intros [-> | Hx]; [left; reflexivity | right; eapply IH, Hx]. }
  apply filter_In in Hin. tauto.
Qed.

(** Reading back documents that validate gives one subscriber per
    document, in order. *)
Lemma validate_documents_reads (docs : list Document) :
  Forall Spec.validates docs ->
  forall g, exists ms,
    fst (validate_documents docs g) = inr ms /\ Forall2 Spec.reads_as docs ms.
Proof.
  induction 1 as [| d docs Hd _ IH]; intros g; cbn [validate_documents].
  - exists []. split; [reflexivity | constructor].
  - specialize (Hd g).
    destruct (SubscriberSchema_model_validate d g) as [v g1] eqn:E.
    cbn [fst] in Hd. destruct v as [m | es]; [| discriminate].
    destruct (IH g1) as (ms & Hms & Hall).
    destruct (validate_documents docs g1) as [r g2]. cbn [fst] in *. subst r.
    exists (m :: ms). split; [reflexivity |].
    constructor; [| exact Hall]. exists g. rewrite E. reflexivity.
Qed.

(** What the route answers when the name filter, if any, compiles to
    [atoms]: the first [limit] selected documents after [offset], read
    back. *)
Lemma GET_subscribers_default_page (w : World) (q : Query) (found : list Document)
    (name : option string) (sst : option Z) (sd : option string) :
  build_query name sst sd = q ->
  find q (subscribers (get_subscriber_collection w)) = Some found ->
  Forall Spec.validates (firstn 100 found) ->
  exists ms w',
    GET_subscribers name sst sd None None w = Some (Respond HTTP_200_OK ms, w')
    /\ Forall2 Spec.reads_as (firstn 100 found) ms
    /\ documents (subscribers w') = documents (subscribers w).
Proof.
  intros Hq Hfind Hvalid.
  unfold GET_subscribers. cbn [ge Z.leb Z.compare app].
  unfold get_subscribers, store_of. rewrite Hq, Hfind.
  unfold Mongo.limit, Mongo.skip. cbn [Z.eqb Z.to_nat Z.abs skipn].
  change (Pos.to_nat 100) with 100.
  destruct (validate_documents_reads _ Hvalid
              (object_ids (get_subscriber_collection w))) as (ms & Hms & Hall).
  destruct (validate_documents (firstn 100 found) _) as [r g']. cbn [fst] in Hms. subst r.
  do 2 eexists. split; [reflexivity |]. split; [exact Hall |].
  cbn [world_of subscribers fst]. apply get_subscriber_collection_documents.
Qed.

End Listing.

Section ListingBySst.
Import Models Mongo Service Subscribers.

(** The [$elemMatch] on [sst] alone selects the documents with a slice of
    that [sst]. *)
Lemma selects_sst_iff (x : Z) (d : Document) :
  selects None (Some {| em_sst := x; em_sd := None |}) d = true <->
  Spec.has_slice_with_sst x d.
Proof.
  unfold selects, elem_match, Spec.has_slice_with_sst. cbn [andb].
  destruct (i_slice d) as [| | slices].
  - split; [discriminate | intros (? & ? & H & _); discriminate H].
  - split; [discriminate | intros (? & ? & H & _); discriminate H].
  - rewrite existsb_exists. split.
    + intros (s & Hin & Hs). exists slices, s. repeat split; try assumption.
      unfold slice_satisfies, Input_eqb in Hs. cbn [em_sst em_sd] in Hs.
      destruct (i_sst s) as [| | y]; try discriminate Hs.
      rewrite andb_true_r in Hs. apply Z.eqb_eq in Hs. congruence.
    + intros (slices' & s & Heq & Hin & Hs). injection Heq as <-.
      exists s. split; [exact Hin |].
      unfold slice_satisfies, Input_eqb. cbn [em_sst em_sd]. rewrite Hs.
      rewrite Z.eqb_refl. reflexivity.
Qed.


(** Whether a document validates does not depend on which [ObjectId]s
    are drawn for its missing [_id] keys. *)
Lemma object_id_factory_valid (i : Input string) (g : ObjectIdGen) :
  V.is_valid (fst (object_id_factory i g)) = true.
Proof. destruct i; reflexivity. Qed.

Lemma SessionModel_validity (s : SessionInput) (g g' : ObjectIdGen) :
  V.is_valid (fst (SessionModel_validate s g))
  = V.is_valid (fst (SessionModel_validate s g')).
Proof.
  unfold SessionModel_validate.
  pose proof (object_id_factory_valid (i_session_id s) g) as H.
  pose proof (object_id_factory_valid (i_session_id s) g') as H'.
  destruct (object_id_factory (i_session_id s) g) as [v g1].
  destruct (object_id_factory (i_session_id s) g') as [v' g1'].
  cbn [fst] in *. rewrite !is_valid_ap, !is_valid_field, H, H'. reflexivity.
Qed.

Lemma validate_items_validity {A B}
    (item : A -> ObjectIdGen -> Validated B * ObjectIdGen) :
  (forall x g g', V.is_valid (fst (item x g)) = V.is_valid (fst (item x g'))) ->
  forall xs i g g',
    V.is_valid (fst (validate_items item i xs g))
    = V.is_valid (fst (validate_items item i xs g')).
Proof.
  intros Hitem xs. induction xs as [| x xs IH]; intros i g g'; [reflexivity |].
  cbn [validate_items].
  specialize (Hitem x g g').
  destruct (item x g) as [vx g1]. destruct (item x g') as [vx' g1'].
  specialize (IH (S i) g1 g1').
  destruct (validate_items item (S i) xs g1) as [vr g2].
  destruct (validate_items item (S i) xs g1') as [vr' g2'].
  cbn [fst] in *. rewrite !is_valid_ap, !is_valid_under, Hitem, IH. reflexivity.
Qed.

Lemma required_items_validity {A B}
    (item : A -> ObjectIdGen -> Validated B * ObjectIdGen) :
  (forall x g g', V.is_valid (fst (item x g)) = V.is_valid (fst (item x g'))) ->
  forall i g g',
    V.is_valid (fst (required_items item i g))
    = V.is_valid (fst (required_items item i g')).
Proof.
  intros Hitem [| | xs] g g'; try reflexivity.
  apply validate_items_validity, Hitem.
Qed.

Lemma SliceModel_validity (s : SliceInput) (g g' : ObjectIdGen) :
  V.is_valid (fst (SliceModel_validate s g)) = V.is_valid (fst (SliceModel_validate s g')).
Proof.
  unfold SliceModel_validate.
  pose proof (required_items_validity SessionModel_validate SessionModel_validity
                (i_session s) g g') as Hs.
  destruct (required_items SessionModel_validate (i_session s) g) as [v g1].
  destruct (required_items SessionModel_validate (i_session s) g') as [v' g1'].
  pose proof (object_id_factory_valid (i_slice_id s) g1) as H.
  pose proof (object_id_factory_valid (i_slice_id s) g1') as H'.
  destruct (object_id_factory (i_slice_id s) g1) as [vid g2].
  destruct (object_id_factory (i_slice_id s) g1') as [vid' g2'].
  cbn [fst] in *. rewrite !is_valid_ap, !is_valid_field, H, H', Hs. reflexivity.
Qed.

Lemma SubscriberSchema_validity (d : SubscriberInput) (g g' : ObjectIdGen) :
  V.is_valid (fst (SubscriberSchema_model_validate d g))
  = V.is_valid (fst (SubscriberSchema_model_validate d g')).
Proof.
  unfold SubscriberSchema_model_validate.
  pose proof (required_items_validity SliceModel_validate SliceModel_validity
                (i_slice d) g g') as Hs.
  destruct (required_items SliceModel_validate (i_slice d) g) as [v g1].
  destruct (required_items SliceModel_validate (i_slice d) g') as [v' g1'].
  cbn [fst] in *. rewrite !is_valid_ap, !is_valid_field, Hs. reflexivity.
Qed.

(** So validity can be checked by running the validator once. *)
Lemma validates_by_running (d : Document) :
  V.is_valid (fst (SubscriberSchema_model_validate d 0%N)) = true -> Spec.validates d.
Proof. intros H g. rewrite (SubscriberSchema_validity d g 0%N). exact H. Qed.

Lemma all_validate_by_running (docs : list Document) :
  forallb (fun d => V.is_valid (fst (SubscriberSchema_model_validate d 0%N))) docs = true ->
  Forall Spec.validates docs.
Proof.
  rewrite forallb_forall, Forall_forall. intros H d Hd. apply validates_by_running, H, Hd.
Qed.



End ListingBySst.

Section ListingByName.
Import Models Mongo Service Subscribers.

(** A pattern without metacharacters compiles to its own characters. *)
Lemma compile_literal (s : string) :
  (forall c, In c (Text.chars s) -> PCRE.is_meta c = false) ->
  PCRE.compile s = Some (map PCRE.Literal (Text.chars s)).
Proof.
  induction s as [| c s IH]; intros H; [reflexivity |].
  cbn [PCRE.compile Text.chars map].
  rewrite IH by (intros c' Hc'; apply H; right; exact Hc').
  assert (Hc : PCRE.is_meta c = false) by (apply H; left; reflexivity).
  destruct (Ascii.eqb c ".") eqn:E.
  - apply Ascii.eqb_eq in E. subst c. discriminate Hc.
  - rewrite Hc. reflexivity.
Qed.

(** Caseless literals match a prefix that is the pattern up to letter
    case. *)
Lemma match_here_literal (s : string) : forall n,
  PCRE.match_here true (map PCRE.Literal (Text.chars s)) n = true <->
  exists middle after,
    n = (middle ++ after)%string /\ Text.lower_string middle = Text.lower_string s.
Proof.
  induction s as [| c s IH]; intros n; cbn [Text.chars map PCRE.match_here].
  - split; [| reflexivity]. intros _. exists EmptyString, n. split; reflexivity.
  - destruct n as [| c' n].
    + split; [discriminate |].
      intros (middle & after & Hn & Hl).
      destruct middle; [discriminate Hl | discriminate Hn].
    + cbn [PCRE.atom_matches]. rewrite andb_true_iff, Ascii.eqb_eq, IH. split.
      * intros (Hc & middle & after & -> & Hl).
        exists (String c' middle), after. split; [reflexivity |].
        cbn [Text.lower_string]. congruence.
      * intros (middle & after & Hn & Hl).
        destruct middle as [| m middle]; [discriminate Hl |].
        cbn [Text.lower_string] in Hl. injection Hl as Hc Hl.
        cbn [String.append] in Hn. injection Hn as -> ->.
        split; [congruence |]. exists middle, after. split; [reflexivity | exact Hl].
Qed.

Lemma search_literal (s : string) : forall n,
  PCRE.search true (map PCRE.Literal (Text.chars s)) n = true <->
  Spec.contains_caseless s n.
Proof.
  unfold Spec.contains_caseless.
  induction n as [| c n IH]; cbn [PCRE.search]; rewrite orb_true_iff, match_here_literal.
  - split.
    + intros [(middle & after & Hn & Hl) | H]; [| discriminate H].
      exists EmptyString, middle, after. split; assumption.
    + intros (before & middle & after & Hn & Hl). left.
      destruct before; [| discriminate Hn]. exists middle, after. split; assumption.
  - rewrite IH. split.
    + intros [(middle & after & Hn & Hl) | (before & middle & after & Hn & Hl)].
      * exists EmptyString, middle, after. split; assumption.
      * exists (String c before), middle, after. split; [| exact Hl].
        cbn [String.append]. congruence.
    + intros (before & middle & after & Hn & Hl).
      destruct before as [| b before].
      * left. exists middle, after. split; assumption.
      * right. cbn [String.append] in Hn. injection Hn as -> ->.
        exists before, middle, after. split; [reflexivity | exact Hl].
Qed.

Lemma selects_name_iff (s : string) (d : Document) :
  selects (Some (map PCRE.Literal (Text.chars s))) None d = true <->
  Spec.has_name_containing s d.
Proof.
  unfold selects, name_matches, Spec.has_name_containing. rewrite andb_true_r.
  destruct (i_name d) as [| | n].
  - split; [discriminate | intros (? & H & _); discriminate H].
  - split; [discriminate | intros (? & H & _); discriminate H].
  - rewrite search_literal. split.
    + intros H. exists n. split; [reflexivity | exact H].
    + intros (n' & Heq & H). injection Heq as <-. exact H.
Qed.




(** The filter is matched caselessly. *)
Example list_by_name_caseless :
  exists m w',
    GET_subscribers (Some "ALI") None None None None
      (Samples.world
         [Samples.stored 1 Samples.imsi_1 (Given "Alice");
          Samples.stored 2 Samples.imsi_2 (Given "Bob")] true false true)
    = Some (Respond HTTP_200_OK [m], w')
    /\ name m = Some "Alice".
Proof. do 2 eexists. split; [vm_compute; reflexivity | reflexivity]. Qed.

End ListingByName.

Section EmptyFilters.
Import Models Mongo Service Subscribers.

(** C10.  An empty name filter is the same as none; an empty [sd] next to
    an [sst] is the same as none; the [sd] condition is part of the
    per-slice match exactly when [sd] is a non-empty string. *)
Theorem empty_filters_ignored (name : option string) (sst : option Z)
    (sd : option string) (limit offset : option Z) (w : World) :
  GET_subscribers (Some EmptyString) sst sd limit offset w
  = GET_subscribers None sst sd limit offset w
  /\ GET_subscribers name sst (Some EmptyString) limit offset w
     = GET_subscribers name sst None limit offset w
  /\ forall x v,
       (exists m, q_slice (build_query name (Some x) sd) = Some m /\ em_sd m = Some v)
       <-> (sd = Some v /\ v <> EmptyString).
Proof.
  split; [reflexivity |]. split; [destruct sst; reflexivity |].
  intros x v. unfold build_query. cbn [q_slice]. split.
  - intros (m & Hm & Hv). injection Hm as <-. cbn [em_sd] in Hv.
    destruct sd as [[| c s] |]; try discriminate Hv.
    cbn in Hv. injection Hv as <-. split; [reflexivity | discriminate].
  - intros (-> & Hv). eexists. split; [reflexivity |]. cbn [em_sd].
    destruct v; [contradiction | reflexivity].
Qed.

End EmptyFilters.

(** ** Creating a subscriber *)

Section Creating.
Import Models Mongo Service Subscribers.

Lemma has_key_imsi_is (x : string) (d : Document) :
  has_key (Some x) d = imsi_is x d.
Proof.
  unfold has_key, imsi_is, imsi_key.
  destruct (i_imsi d) as [| | s]; cbn; try reflexivity. apply String.eqb_sym.
Qed.

Lemma existsb_has_key (x : string) (docs : list Document) :
  existsb (has_key (Some x)) docs = existsb (imsi_is x) docs.
Proof.
  induction docs as [| d docs IH]; [reflexivity |].
  cbn [existsb]. rewrite has_key_imsi_is, IH. reflexivity.
Qed.

(** With the unique index in place, inserting a record whose IMSI is
    stored already is refused and the collection is left as it was. *)
Lemma create_subscriber_conflict (data : SubscriberSchema) (c : Collection)
    (g : ObjectIdGen) :
  imsi_unique_index c = true ->
  existsb (imsi_is (imsi data)) (documents c) = true ->
  create_subscriber data (c, g)
  = (HTTPException HTTP_409_CONFLICT
       ("Subscriber with IMSI " ++ imsi data ++ " already exists"),
     (c, N.succ g)).
Proof.
  intros Hindex Hstored. unfold create_subscriber, insert_one.
  cbn [SubscriberSchema_model_dump id_of i_id ObjectId_new].
  destruct (existsb (has_id (ObjectId g)) (documents c)); [reflexivity |].
  rewrite Hindex. cbn [andb].
  change (imsi_key (set_id (Given (ObjectId g)) (SubscriberSchema_model_dump true data)))
    with (Some (imsi data)).
  rewrite existsb_has_key, Hstored. reflexivity.
Qed.

(** When the index is in place once the collection was obtained: it
    existed, or this access could build it. *)
Lemma index_after_ensure (w : World) :
  imsi_unique_index (subscribers (get_subscriber_collection w))
  = imsi_unique_index (subscribers w)
    || (negb (_indexes_initialized (service w))
        && negb (refuses_index_builds (subscribers w))
        && negb (has_duplicates (map imsi_key (documents (subscribers w))))).
Proof.
  destruct w as [[initialized] [docs index refuses] g].
  unfold get_subscriber_collection, _ensure_indexes, create_index.
  cbn [service subscribers _indexes_initialized refuses_index_builds
       imsi_unique_index documents].
  destruct initialized, refuses, index, (has_duplicates (map imsi_key docs));
    reflexivity.
Qed.




(** A first create on an empty store succeeds, and the same body again is
    a conflict. *)
Example create_twice :
  exists m w1 w2,
    POST_subscribers (Samples.body Samples.imsi_1 Absent)
      (Samples.world [] false false false) = (Respond HTTP_201_CREATED m, w1)
    /\ POST_subscribers (Samples.body Samples.imsi_1 Absent) w1
       = (HTTPException HTTP_409_CONFLICT
            "Subscriber with IMSI 001010000000001 already exists", w2)
    /\ List.length (documents (subscribers w2)) = 1.
Proof.
  do 3 eexists. split; [vm_compute; reflexivity |].
  split; [vm_compute; reflexivity | reflexivity].
Qed.

End Creating.

(** ** Replacing a subscriber *)

Section Replacing.
Import Models Mongo Service Subscribers.

Lemma split_first_none (p : Document -> bool) (docs : list Document) :
  split_first p docs = None <-> existsb p docs = false.
Proof.
  induction docs as [| d docs IH]; cbn [split_first existsb]; [tauto |].
  destruct (p d); cbn [orb]; [split; discriminate |].
  destruct (split_first p docs) as [[[before hit] after] |].
  - split; [discriminate |]. intros H. apply IH in H. discriminate H.
  - split; [intros _; apply IH; reflexivity | reflexivity].
Qed.

Lemma split_first_some (p : Document -> bool) (docs before after : list Document)
    (hit : Document) :
  split_first p docs = Some (before, hit, after) ->
  docs = (before ++ hit :: after)%list /\ p hit = true /\ existsb p before = false.
Proof.
  revert before. induction docs as [| d docs IH]; intros before; cbn [split_first].
  - discriminate.
  - destruct (p d) eqn:E.
    + intros [= <- <- <-]. repeat split; [exact E].
    + destruct (split_first p docs) as [[[b h] a] |]; [| discriminate].
      intros [= <- <- <-]. destruct (IH b eq_refl) as (-> & Hh & Hb).
      repeat split; [exact Hh |]. cbn [existsb]. rewrite E, Hb. reflexivity.
Qed.

Lemma others_app (x : string) (l1 l2 : list Document) :
  Spec.others x (l1 ++ l2)%list = (Spec.others x l1 ++ Spec.others x l2)%list.
Proof. apply filter_app. Qed.


(** C4 on the code: a client that sends back what it was listed, name
    changed, has the stored [_id] as a string in the body; the replacement
    is refused by the collection with an error that the handler does not
    catch, and nothing is stored. *)
Theorem replace_with_listed_id_unhandled :
  exists m w1 w2,
    GET_subscribers None None None None None
      (Samples.world [Samples.stored 1 Samples.imsi_1 (Given "before")] true false true)
    = Some (Respond HTTP_200_OK [m], w1)
    /\ subscriber_id m = Some "000000000000000000000001"
    /\ PUT_subscriber Samples.imsi_1
         (set_id (Given (StrId "000000000000000000000001"))
            (Samples.body Samples.imsi_1 (Given "after")))
         w1
       = (Unhandled
            (MongoError
               (WriteError "the (immutable) field '_id' was found to have been altered")),
          w2)
    /\ documents (subscribers w2)
       = [Samples.stored 1 Samples.imsi_1 (Given "before")].
Proof.
  do 3 eexists. split; [vm_compute; reflexivity |].
  split; [reflexivity |]. split; [vm_compute; reflexivity | reflexivity].
Qed.

(** The same replacement without the [_id] key is stored. *)
Example replace_without_id_stored :
  exists w',
    PUT_subscriber Samples.imsi_1 (Samples.body Samples.imsi_2 (Given "after"))
      (Samples.world [Samples.stored 1 Samples.imsi_1 (Given "before")] true false true)
    = (Respond HTTP_200_OK
         {| status := "success"; message := "Subscriber 001010000000001 updated" |}, w')
    /\ map (fun d => (i_id d, i_imsi d, i_name d)) (documents (subscribers w'))
       = [(Given (ObjectId 1), Given Samples.imsi_1, Given "after")].
Proof. eexists. split; [vm_compute; reflexivity | reflexivity]. Qed.

(** A path IMSI that no stored record has is a 404, with or without an
    [_id] in the body. *)
Example replace_absent_not_found :
  exists w',
    PUT_subscriber Samples.imsi_2
      (set_id (Given (StrId "000000000000000000000001"))
         (Samples.body Samples.imsi_2 Absent))
      (Samples.world [Samples.stored 1 Samples.imsi_1 Absent] true false true)
    = (HTTPException HTTP_404_NOT_FOUND
         "Subscriber with IMSI 001010000000002 not found", w').
Proof. eexists. vm_compute. reflexivity. Qed.

End Replacing.

(* ================================================================== *)
(** * Further properties of the code *)

(** ** What validation guarantees *)

Lemma ap_valid_inv {A B} (vf : Validated (A -> B)) (va : Validated A) (b : B) :
  vf <*> va = Valid b -> exists f a, vf = Valid f /\ va = Valid a /\ b = f a.
Proof.
  destruct vf as [f | ?], va as [a | ?]; cbn; try discriminate.
  intros [= <-]. exists f, a. repeat split.
Qed.

Lemma field_valid_inv {A} (n : string) (v : Validated A) (a : A) :
  Models.field n v = Valid a -> v = Valid a.
Proof. destruct v; cbn; [tauto | discriminate]. Qed.

Lemma constrained_valid_inv (p : Pattern.t) (s s' : string) :
  Models.constrained p s = Valid s' -> s' = s /\ Pattern.matches p s = true.
Proof.
  unfold Models.constrained. destruct (Pattern.matches p s); [| discriminate].
  intros [= <-]. split; reflexivity.
Qed.

(** Taking apart a chain of fields that validated. *)
Ltac ap_inv H :=
  let f := fresh "f" in
  let a := fresh "a" in
  let Hf := fresh "Hf" in
  let Ha := fresh "Ha" in
  let Hb := fresh "Hb" in
  apply ap_valid_inv in H; destruct H as (f & a & Hf & Ha & Hb);
  apply field_valid_inv in Ha;
  first [ ap_inv Hf | injection Hf as Hf ]; subst.

Section CleanHex.
Import Models.

Lemma clean_hex_spaces_chars (s : string) :
  Text.chars (clean_hex_spaces s)
  = filter (fun c => negb (Ascii.eqb c " ")) (Text.chars s).
Proof.
  induction s as [| c s IH]; [reflexivity |].
  cbn [clean_hex_spaces Text.chars filter].
  destruct (Ascii.eqb c " "); cbn [negb Text.chars]; congruence.
Qed.

Lemma chars_inj (s t : string) : Text.chars s = Text.chars t -> s = t.
Proof.
  revert t. induction s as [| c s IH]; intros [| d t]; cbn; try discriminate.
  - reflexivity.
  - intros [= -> H]. f_equal. apply IH, H.
Qed.

Lemma clean_hex_spaces_fixed (s : string) :
  ~ In " "%char (Text.chars s) -> clean_hex_spaces s = s.
Proof.
  induction s as [| c s IH]; [reflexivity |].
  cbn [clean_hex_spaces Text.chars]. intros H.
  destruct (Ascii.eqb c " ") eqn:E.
  - apply Ascii.eqb_eq in E. subst c. exfalso. apply H. left. reflexivity.
  - f_equal. apply IH. intros Hin. apply H. right. exact Hin.
Qed.

Lemma clean_hex_spaces_no_space (s : string) :
  ~ In " "%char (Text.chars (clean_hex_spaces s)).
Proof.
  rewrite clean_hex_spaces_chars. intros H. apply filter_In in H.
  destruct H as [_ H]. rewrite Ascii.eqb_refl in H. discriminate H.
Qed.

(** X1.  [clean_hex_spaces] leaves no space in its result, keeps every
    other character in place (so a text without spaces is returned as it
    is, and the result is never longer), and cleaning twice is cleaning
    once. *)
Theorem clean_hex_spaces_normalises (s : string) :
  ~ In " "%char (Text.chars (clean_hex_spaces s))
  /\ (forall c, c <> " "%char ->
        count_occ ascii_dec (Text.chars (clean_hex_spaces s)) c
        = count_occ ascii_dec (Text.chars s) c)
  /\ String.length (clean_hex_spaces s) <= String.length s
  /\ (~ In " "%char (Text.chars s) -> clean_hex_spaces s = s)
  /\ clean_hex_spaces (clean_hex_spaces s) = clean_hex_spaces s.
Proof.
  split; [apply clean_hex_spaces_no_space |].
  split; [| split; [| split]].
  - intros c Hc. induction s as [| d s IH]; [reflexivity |].
    cbn [clean_hex_spaces Text.chars].
    destruct (Ascii.eqb d " ") eqn:E.
    + apply Ascii.eqb_eq in E. subst d. rewrite IH.
      cbn [count_occ]. destruct (ascii_dec " " c); [congruence | reflexivity].
    + cbn [Text.chars count_occ]. destruct (ascii_dec d c); rewrite IH; reflexivity.
  - induction s as [| d s IH]; [apply le_n |].
    cbn [clean_hex_spaces]. destruct (Ascii.eqb d " "); cbn [String.length]; lia.
  - apply clean_hex_spaces_fixed.
  - apply clean_hex_spaces_fixed, clean_hex_spaces_no_space.
Qed.

End CleanHex.

Section ValidatedShape.
Import Models.

Lemma Hex32Str_valid_inv (s v : string) :
  Hex32Str s = Valid v -> v = clean_hex_spaces s /\ Spec.hex_of_length 32 v.
Proof.
  unfold Hex32Str. intros H. apply constrained_valid_inv in H. destruct H as [-> H].
  split; [reflexivity |]. apply hex_pattern_iff. exact H.
Qed.

Lemma Hex4Str_valid_inv (s v : string) :
  Hex4Str s = Valid v -> v = clean_hex_spaces s /\ Spec.hex_of_length 4 v.
Proof.
  unfold Hex4Str. intros H. apply constrained_valid_inv in H. destruct H as [-> H].
  split; [reflexivity |]. apply hex_pattern_iff. exact H.
Qed.

Lemma optional_Hex32Str_inv (i : Input string) (o : option string) :
  V.optional None Hex32Str i = Valid o ->
  match o with
  | Some v => exists s, i = Given s /\ v = clean_hex_spaces s /\ Spec.hex_of_length 32 v
  | None => ~ Spec.present i
  end.
Proof.
  destruct i as [| | s]; cbn.
  - intros [= <-]. tauto.
  - intros [= <-]. tauto.
  - destruct (Hex32Str s) as [v |] eqn:E; cbn; [| discriminate].
    intros [= <-]. apply Hex32Str_valid_inv in E. destruct E as [-> E].
    exists s. split; [reflexivity | split; [reflexivity | exact E]].
Qed.

Lemma hex_of_length_truthy (n : nat) (s : string) :
  Spec.hex_of_length (S n) s -> Text.truthy s = true.
Proof. intros [H _]. destruct s; [discriminate H | reflexivity]. Qed.

Lemma SecurityModel_validate_inv (raw : SecurityInput) (m : SecurityModel) :
  SecurityModel_validate raw = Valid m ->
  Shape.credentials m
  /\ (forall s, i_k raw = Given s -> k m = clean_hex_spaces s)
  /\ (i_amf raw = Absent -> amf m = "8000")
  /\ (forall s, i_amf raw = Given s -> amf m = clean_hex_spaces s)
  /\ (forall s, i_op raw = Given s -> op m = Some (clean_hex_spaces s) /\ opc m = None)
  /\ (forall s, i_opc raw = Given s -> opc m = Some (clean_hex_spaces s) /\ op m = None).
Proof.
  unfold SecurityModel_validate. intros H.
  match type of H with V.bind ?chain _ = _ => destruct chain as [m0 |] eqn:E end;
    [| discriminate H].
  cbn [V.bind] in H. ap_inv E.
  rename a into vopc, a0 into vop, a1 into vamf, a2 into vk.
  apply optional_Hex32Str_inv in Ha, Ha0.
  unfold check_op_or_opc, truthy in H. cbn [op opc] in H.
  assert (Hk : exists s, i_k raw = Given s /\ vk = clean_hex_spaces s
                         /\ Spec.hex_of_length 32 vk).
  { destruct (i_k raw) as [| | s]; cbn in Ha2; try discriminate Ha2.
    apply Hex32Str_valid_inv in Ha2. exists s. tauto. }
  assert (Hamf : Spec.hex_of_length 4 vamf
                 /\ (i_amf raw = Absent -> vamf = "8000")
                 /\ (forall s, i_amf raw = Given s -> vamf = clean_hex_spaces s)).
  { destruct (i_amf raw) as [| | s]; cbn in Ha1; try discriminate Ha1.
    - injection Ha1 as <-. split; [| split; [reflexivity | discriminate]].
      apply hex_pattern_iff. vm_compute. reflexivity.
    - apply Hex4Str_valid_inv in Ha1. destruct Ha1 as [-> Ha1].
      split; [exact Ha1 |]. split; [discriminate |]. intros s' [= <-]. reflexivity. }
  destruct Hk as (sk & Hik & -> & Hk). destruct Hamf as (Hamf & Hdef & Hgiven).
  destruct vop as [o |], vopc as [oc |].
  - destruct Ha0 as (? & _ & _ & Ho). destruct Ha as (? & _ & _ & Hoc).
    rewrite (hex_of_length_truthy _ _ Ho), (hex_of_length_truthy _ _ Hoc) in H.
    discriminate H.
  - destruct Ha0 as (so & Hio & -> & Ho).
    rewrite (hex_of_length_truthy _ _ Ho) in H. cbn in H. injection H as <-.
    cbn [k amf op opc]. unfold Shape.credentials. cbn [k amf op opc].
    split; [split; [exact Hk | split; [exact Hamf |]] |].
    + left. exists (clean_hex_spaces so).
      split; [reflexivity | split; [exact Ho | reflexivity]].
    + split; [intros s Hs; congruence |]. split; [exact Hdef |]. split; [exact Hgiven |].
      split.
      * intros s Hs. rewrite Hio in Hs. injection Hs as <-. split; reflexivity.
      * intros s Hs. rewrite Hs in Ha. cbn in Ha. tauto.
  - destruct Ha as (soc & Hioc & -> & Hoc).
    rewrite (hex_of_length_truthy _ _ Hoc) in H. cbn in H. injection H as <-.
    cbn [k amf op opc]. unfold Shape.credentials. cbn [k amf op opc].
    split; [split; [exact Hk | split; [exact Hamf |]] |].
    + right. exists (clean_hex_spaces soc).
      split; [reflexivity | split; [exact Hoc | reflexivity]].
    + split; [intros s Hs; congruence |]. split; [exact Hdef |]. split; [exact Hgiven |].
      split.
      * intros s Hs. rewrite Hs in Ha0. cbn in Ha0. tauto.
      * intros s Hs. rewrite Hioc in Hs. injection Hs as <-. split; reflexivity.
  - cbn in H. discriminate H.
Qed.

(** X2.  Credentials that validate are kept in canonical form: [k],
    [amf] and the one of [op]/[opc] that is kept are the input texts with
    their spaces removed, of 32, 4 and 32 hex characters; the other of
    [op]/[opc] is [None]; a missing [amf] is ["8000"]. *)
Theorem validated_credentials_canonical (raw : SecurityInput) (m : SecurityModel) :
  SecurityModel_validate raw = Valid m ->
  Shape.credentials m
  /\ (forall s, i_k raw = Given s -> k m = clean_hex_spaces s)
  /\ (i_amf raw = Absent -> amf m = "8000")
  /\ (forall s, i_amf raw = Given s -> amf m = clean_hex_spaces s)
  /\ (forall s, i_op raw = Given s -> op m = Some (clean_hex_spaces s) /\ opc m = None)
  /\ (forall s, i_opc raw = Given s -> opc m = Some (clean_hex_spaces s) /\ op m = None).
Proof. apply SecurityModel_validate_inv. Qed.

Lemma validated_credentials_canonical_witness :
  Shape.credentials
    {| k := Samples.key_k; amf := "8000"; op := None; opc := Some Samples.key_opc |}
  /\ k {| k := Samples.key_k; amf := "8000"; op := None; opc := Some Samples.key_opc |}
     = clean_hex_spaces "465B 5CE8 B199 B49F AA5F 0A2E E238 A6BC".
Proof.
  pose proof (validated_credentials_canonical
                {| i_k := Given "465B 5CE8 B199 B49F AA5F 0A2E E238 A6BC";
                   i_amf := Absent; i_op := Null; i_opc := Given Samples.key_opc |}
                {| k := Samples.key_k; amf := "8000"; op := None;
                   opc := Some Samples.key_opc |}
                eq_refl) as H.
  split; [exact (proj1 H) | exact (proj1 (proj2 H) _ eq_refl)].
Defined.

Lemma validate_items_valid_inv {A B}
    (item : A -> ObjectIdGen -> Validated B * ObjectIdGen) (xs : list A) :
  forall i g ys,
    fst (validate_items item i xs g) = Valid ys ->
    Forall2 (fun x y => exists g0, fst (item x g0) = Valid y) xs ys.
Proof.
  induction xs as [| x xs IH]; intros i g ys; cbn [validate_items].
  - cbn. intros [= <-]. constructor.
  - destruct (item x g) as [vx g1] eqn:Ex.
    destruct (validate_items item (S i) xs g1) as [vrest g2] eqn:Er.
    cbn [fst]. intros H.
    apply ap_valid_inv in H. destruct H as (f & ys' & Hf & Hrest & ->).
    apply ap_valid_inv in Hf. destruct Hf as (c & y & Hc & Hy & ->).
    injection Hc as <-.
    constructor.
    + exists g. rewrite Ex. cbn [fst]. destruct vx; cbn in Hy; congruence.
    + apply (IH (S i) g1). rewrite Er. exact Hrest.
Qed.

Lemma SubscriberSchema_validate_inv (raw : SubscriberInput) (g : ObjectIdGen)
    (m : SubscriberSchema) :
  fst (SubscriberSchema_model_validate raw g) = Valid m ->
  V.required ImsiStr (i_imsi raw) = Valid (imsi m)
  /\ V.optional None (max_length 100) (i_name raw) = Valid (name m)
  /\ V.required SecurityModel_validate (i_security raw) = Valid (security m)
  /\ (exists g', required_items SliceModel_validate (i_slice raw) g = (Valid (slice m), g'))
  /\ V.optional None (fun b => Valid (PyObjectId b)) (i_id raw) = Valid (subscriber_id m).
Proof.
  unfold SubscriberSchema_model_validate.
  destruct (required_items SliceModel_validate (i_slice raw) g) as [vslice g'] eqn:Es.
  cbn [fst]. intros H. ap_inv H. cbn [imsi name security slice subscriber_id].
  repeat split; try assumption. exists g'. reflexivity.
Qed.

Lemma SubscriberSchema_validate_shape (raw : SubscriberInput) (g : ObjectIdGen)
    (m : SubscriberSchema) :
  fst (SubscriberSchema_model_validate raw g) = Valid m ->
  Shape.subscriber m
  /\ i_imsi raw = Given (imsi m)
  /\ (forall n, name m = Some n -> i_name raw = Given n)
  /\ (name m = None -> ~ Spec.present (i_name raw))
  /\ exists slices,
       i_slice raw = Given slices
       /\ Forall2 (fun x y => exists g0, fst (SliceModel_validate x g0) = Valid y)
            slices (slice m).
Proof.
  intros H. apply SubscriberSchema_validate_inv in H.
  destruct H as (Himsi & Hname & Hsec & (g' & Hslice) & _).
  assert (Hi : i_imsi raw = Given (imsi m)
               /\ Pattern.matches ImsiStr_pattern (imsi m) = true).
  { destruct (i_imsi raw) as [| | s]; cbn in Himsi; try discriminate Himsi.
    apply constrained_valid_inv in Himsi. destruct Himsi as [-> Hp].
    split; [reflexivity | exact Hp]. }
  assert (Hn : (forall n, name m = Some n -> i_name raw = Given n /\ String.length n <= 100)
               /\ (name m = None -> ~ Spec.present (i_name raw))).
  { destruct (i_name raw) as [| | s]; cbn in Hname.
    - injection Hname as <-. split; [discriminate | tauto].
    - injection Hname as <-. split; [discriminate | tauto].
    - unfold max_length in Hname.
      destruct (Nat.leb (String.length s) 100) eqn:E; cbn in Hname; [| discriminate].
      injection Hname as <-. apply Nat.leb_le in E.
      split; [intros n [= <-]; split; [reflexivity | exact E] | discriminate]. }
  assert (Hs : Shape.credentials (security m)).
  { destruct (i_security raw) as [| | sec]; cbn in Hsec; try discriminate Hsec.
    apply SecurityModel_validate_inv in Hsec. apply Hsec. }
  split; [| split; [apply Hi | split; [| split; [apply Hn |]]]].
  - split; [apply ImsiStr_pattern_iff, Hi |]. split; [| exact Hs].
    intros n Hnm. apply (proj1 Hn n Hnm).
  - intros n Hnm. apply (proj1 Hn n Hnm).
  - destruct (i_slice raw) as [| | slices]; cbn in Hslice; try discriminate Hslice.
    exists slices. split; [reflexivity |].
    apply (validate_items_valid_inv SliceModel_validate slices 0 g).
    rewrite Hslice. reflexivity.
Qed.

(** X3.  A subscriber that validates has the IMSI of the input, of 14 or
    15 decimal digits; its name, if any, is the input's and has at most
    100 characters; its credentials are canonical; and it has exactly as
    many slices as the input, each the validation of the input slice at
    the same position. *)
Theorem validated_subscriber_shape (raw : SubscriberInput) (g : ObjectIdGen)
    (m : SubscriberSchema) :
  fst (SubscriberSchema_model_validate raw g) = Valid m ->
  Shape.subscriber m
  /\ i_imsi raw = Given (imsi m)
  /\ (forall n, name m = Some n -> i_name raw = Given n)
  /\ (name m = None -> ~ Spec.present (i_name raw))
  /\ exists slices,
       i_slice raw = Given slices
       /\ Forall2 (fun x y => exists g0, fst (SliceModel_validate x g0) = Valid y)
            slices (slice m).
Proof. apply SubscriberSchema_validate_shape. Qed.

Lemma validated_subscriber_shape_witness :
  Shape.subscriber (Samples.subscriber_of (Samples.body Samples.imsi_1 (Given "Alice"))).
Proof.
  exact (proj1 (validated_subscriber_shape
                  (Samples.body Samples.imsi_1 (Given "Alice")) 0%N
                  (Samples.subscriber_of (Samples.body Samples.imsi_1 (Given "Alice")))
                  eq_refl)).
Defined.

End ValidatedShape.

(** ** Dumping and validating again *)

Section RoundTrip.
Import Models.

Lemma AmbrValueModel_round_trip (m : AmbrValueModel) :
  AmbrValueModel_validate (AmbrValueModel_dump m) = Valid m.
Proof. destruct m. reflexivity. Qed.

Lemma AmbrModel_round_trip (m : AmbrModel) :
  AmbrModel_validate (AmbrModel_dump m) = Valid m.
Proof.
  destruct m as [d u]. unfold AmbrModel_validate, AmbrModel_dump.
  cbn [i_downlink i_uplink downlink uplink V.defaulted].
  rewrite !AmbrValueModel_round_trip. reflexivity.
Qed.

Lemma ArpModel_round_trip (m : ArpModel) :
  ArpModel_validate (ArpModel_dump m) = Valid m.
Proof. destruct m. reflexivity. Qed.

(** A [None] [arp] is dropped by the dump and comes back as the default. *)
Lemma QosModel_round_trip (m : QosModel) :
  QosModel_validate (QosModel_dump m)
  = Valid {| qos_index := qos_index m;
             arp := match arp m with
                    | Some a => Some a
                    | None => Some ArpModel_default
                    end |}.
Proof.
  destruct m as [i [a |]]; unfold QosModel_validate, QosModel_dump;
    cbn [i_qos_index i_arp qos_index arp dump_option V.defaulted V.optional];
    [rewrite ArpModel_round_trip |]; reflexivity.
Qed.

Lemma UeModel_round_trip (m : UeModel) :
  UeModel_validate (UeModel_dump m) = Valid m.
Proof. destruct m as [[?|] [?|]]; reflexivity. Qed.

Lemma SessionModel_dump_valid (s : SessionModel) (g : ObjectIdGen) :
  V.is_valid (fst (SessionModel_validate (SessionModel_dump s) g)) = true.
Proof.
  unfold SessionModel_validate.
  pose proof (object_id_factory_valid (i_session_id (SessionModel_dump s)) g) as Hid.
  destruct (object_id_factory (i_session_id (SessionModel_dump s)) g) as [vid g'].
  cbn [fst] in *. rewrite !is_valid_ap, !is_valid_field, Hid.
  destruct s as [n t q a u p l i].
  cbn [SessionModel_dump i_session_name i_session_type i_qos i_session_ambr i_ue
       i_pcc_rule i_lbo_roaming_allowed V.defaulted V.optional
       session_name session_type qos session_ambr ue pcc_rule lbo_roaming_allowed].
  rewrite QosModel_round_trip, AmbrModel_round_trip.
  destruct u as [u |], l as [l |]; cbn [dump_option V.optional V.bind];
    rewrite ?UeModel_round_trip; reflexivity.
Qed.

Lemma SessionModel_round_trip (s : SessionModel) (g : ObjectIdGen) :
  Shape.complete_session s ->
  SessionModel_validate (SessionModel_dump s) g = (Valid s, g).
Proof.
  intros [Hid Harp]. destruct s as [n t [qi [a |]] am u p l [i |]];
    cbn [session_id qos arp] in *; try congruence.
  unfold SessionModel_validate, SessionModel_dump.
  cbn [i_session_name i_session_type i_qos i_session_ambr i_ue i_pcc_rule
       i_lbo_roaming_allowed i_session_id dump_option object_id_factory
       V.defaulted V.optional
       session_name session_type qos session_ambr ue pcc_rule lbo_roaming_allowed
       session_id].
  rewrite QosModel_round_trip, AmbrModel_round_trip.
  destruct u as [u |], l as [l |]; cbn [dump_option V.optional V.bind];
    rewrite ?UeModel_round_trip; reflexivity.
Qed.

Lemma validate_items_dump_valid {A B C} (dump : C -> A)
    (item : A -> ObjectIdGen -> Validated B * ObjectIdGen) :
  (forall x g, V.is_valid (fst (item (dump x) g)) = true) ->
  forall xs i g, V.is_valid (fst (validate_items item i (map dump xs) g)) = true.
Proof.
  intros Hitem xs. induction xs as [| x xs IH]; intros i g; [reflexivity |].
  cbn [map validate_items].
  specialize (Hitem x g). destruct (item (dump x) g) as [vx g1].
  specialize (IH (S i) g1).
  destruct (validate_items item (S i) (map dump xs) g1) as [vr g2].
  cbn [fst] in *. rewrite !is_valid_ap, is_valid_under, Hitem, IH. reflexivity.
Qed.

Lemma validate_items_round_trip {A B} (dump : B -> A)
    (item : A -> ObjectIdGen -> Validated B * ObjectIdGen) (P : B -> Prop) :
  (forall x g, P x -> item (dump x) g = (Valid x, g)) ->
  forall xs i g, Forall P xs -> validate_items item i (map dump xs) g = (Valid xs, g).
Proof.
  intros Hitem xs. induction xs as [| x xs IH]; intros i g Hall; [reflexivity |].
  inversion Hall as [| ? ? Hx Hxs]; subst.
  cbn [map validate_items]. rewrite (Hitem x g Hx), (IH (S i) g Hxs). reflexivity.
Qed.

Lemma SliceModel_dump_valid (s : SliceModel) (g : ObjectIdGen) :
  V.is_valid (fst (SliceModel_validate (SliceModel_dump s) g)) = true.
Proof.
  unfold SliceModel_validate.
  destruct s as [x d b ss i].
  cbn [SliceModel_dump i_session i_slice_id i_sst i_sd i_default_indicator
       required_items sst sd default_indicator session slice_id].
  pose proof (validate_items_dump_valid SessionModel_dump SessionModel_validate
                SessionModel_dump_valid ss 0 g) as Hs.
  destruct (validate_items SessionModel_validate 0 (map SessionModel_dump ss) g)
    as [vs g1].
  pose proof (object_id_factory_valid (dump_option (fun s => s) i) g1) as Hid.
  destruct (object_id_factory (dump_option (fun s => s) i) g1) as [vid g2].
  cbn [fst] in *. rewrite !is_valid_ap, !is_valid_field, Hs, Hid.
  destruct d; reflexivity.
Qed.

Lemma SliceModel_round_trip (s : SliceModel) (g : ObjectIdGen) :
  Shape.complete_slice s ->
  SliceModel_validate (SliceModel_dump s) g = (Valid s, g).
Proof.
  intros (Hsd & Hid & Hss). destruct s as [x [d |] b ss [i |]];
    cbn [sd slice_id session] in *; try congruence.
  unfold SliceModel_validate, SliceModel_dump.
  cbn [i_session i_slice_id i_sst i_sd i_default_indicator required_items
       sst sd default_indicator session slice_id].
  rewrite (validate_items_round_trip SessionModel_dump SessionModel_validate
             Shape.complete_session
             (fun s g H => SessionModel_round_trip s g H) ss 0 g Hss).
  reflexivity.
Qed.

Lemma hex_chars_no_space (s : string) :
  Forall Spec.hex_char (Text.chars s) -> ~ In " "%char (Text.chars s).
Proof.
  rewrite Forall_forall. intros H Hin. specialize (H _ Hin).
  unfold Spec.hex_char in H. cbn in H.
  repeat (destruct H as [H | H]; [discriminate H |]). exact H.
Qed.

Lemma Hex32Str_canonical (s : string) :
  Spec.hex_of_length 32 s -> Hex32Str s = Valid s.
Proof.
  intros H. unfold Hex32Str, constrained, Pattern.matches.
  rewrite (clean_hex_spaces_fixed s (hex_chars_no_space s (proj2 H))).
  cbn [Hex32Str_pattern Pattern.class Pattern.min_repeat Pattern.max_repeat].
  apply hex_pattern_iff in H. rewrite H. reflexivity.
Qed.

Lemma Hex4Str_canonical (s : string) :
  Spec.hex_of_length 4 s -> Hex4Str s = Valid s.
Proof.
  intros H. unfold Hex4Str, constrained, Pattern.matches.
  rewrite (clean_hex_spaces_fixed s (hex_chars_no_space s (proj2 H))).
  cbn [Hex4Str_pattern Pattern.class Pattern.min_repeat Pattern.max_repeat].
  apply hex_pattern_iff in H. rewrite H. reflexivity.
Qed.

Lemma SecurityModel_round_trip (m : SecurityModel) :
  Shape.credentials m -> SecurityModel_validate (SecurityModel_dump m) = Valid m.
Proof.
  intros (Hk & Hamf & Hone). destruct m as [vk vamf vop vopc].
  cbn [k amf op opc] in *.
  unfold SecurityModel_validate, SecurityModel_dump.
  cbn [i_k i_amf i_op i_opc k amf op opc V.required V.defaulted].
  rewrite (Hex32Str_canonical vk Hk), (Hex4Str_canonical vamf Hamf).
  destruct Hone as [(o & -> & Ho & ->) | (o & -> & Ho & ->)];
    cbn [dump_option V.optional V.bind]; rewrite (Hex32Str_canonical o Ho);
    cbn; unfold check_op_or_opc, truthy; cbn [op opc];
    rewrite (hex_of_length_truthy _ _ Ho); reflexivity.
Qed.

End RoundTrip.

Section StoredDocuments.
Import Models.

Lemma ImsiStr_canonical (x : string) :
  Pattern.matches ImsiStr_pattern x = true -> ImsiStr x = Valid x.
Proof. intros H. unfold ImsiStr, constrained. rewrite H. reflexivity. Qed.

Lemma name_round_trip (o : option string) :
  (forall n, o = Some n -> String.length n <= 100) ->
  V.optional None (max_length 100) (dump_option (fun s => s) o) = Valid o.
Proof.
  intros H. destruct o as [n |]; [| reflexivity].
  cbn [dump_option V.optional]. unfold max_length.
  specialize (H n eq_refl). apply Nat.leb_le in H. rewrite H. reflexivity.
Qed.

(** The dump of a validated subscriber, with any [_id] and any IMSI of
    the right form put in its place, validates. *)
Lemma stored_document_valid (m : SubscriberSchema) (x : string) (i : Input BsonId)
    (e : bool) (g : ObjectIdGen) :
  Shape.subscriber m ->
  Pattern.matches ImsiStr_pattern x = true ->
  V.is_valid
    (fst (SubscriberSchema_model_validate
            (set_id i (set_imsi x (SubscriberSchema_model_dump e m))) g)) = true.
Proof.
  intros (_ & Hname & Hsec) Hx. unfold SubscriberSchema_model_validate.
  cbn [set_id set_imsi SubscriberSchema_model_dump i_id i_schema_version i_imsi i_name
       i_msisdn i_imeisv i_mme_host i_mm_realm i_purge_flag i_slice i_security i_ambr
       i_access_restriction_data i_network_access_mode i_subscriber_status
       i_operator_determined_barring i_subscribed_rau_tau_timer i_v required_items].
  pose proof (validate_items_dump_valid SliceModel_dump SliceModel_validate
                SliceModel_dump_valid (slice m) 0 g) as Hs.
  destruct (validate_items SliceModel_validate 0 (map SliceModel_dump (slice m)) g)
    as [vs g1].
  cbn [fst] in *. rewrite !is_valid_ap, !is_valid_field, Hs.
  cbn [V.required V.defaulted]. rewrite (ImsiStr_canonical x Hx).
  rewrite (name_round_trip (name m) Hname), (SecurityModel_round_trip _ Hsec),
    AmbrModel_round_trip.
  destruct i; reflexivity.
Qed.

(** The dump of a validated, complete subscriber validates to the same
    subscriber, carrying the [_id] put in the dump, and draws no
    [ObjectId]. *)
Lemma stored_document_round_trip (m : SubscriberSchema) (i : Input BsonId) (e : bool)
    (g : ObjectIdGen) :
  Shape.subscriber m ->
  Shape.complete m ->
  SubscriberSchema_model_validate (set_id i (SubscriberSchema_model_dump e m)) g
  = (Valid (Shape.with_id (match i with
                           | Given b => Some (PyObjectId b)
                           | _ => None
                           end) m), g).
Proof.
  intros (Himsi & Hname & Hsec) Hc. unfold SubscriberSchema_model_validate.
  cbn [set_id SubscriberSchema_model_dump i_id i_schema_version i_imsi i_name
       i_msisdn i_imeisv i_mme_host i_mm_realm i_purge_flag i_slice i_security i_ambr
       i_access_restriction_data i_network_access_mode i_subscriber_status
       i_operator_determined_barring i_subscribed_rau_tau_timer i_v required_items].
  rewrite (validate_items_round_trip SliceModel_dump SliceModel_validate
             Shape.complete_slice
             (fun s g H => SliceModel_round_trip s g H) (slice m) 0 g Hc).
  cbn [V.required V.defaulted].
  rewrite (ImsiStr_canonical (imsi m) (proj2 (ImsiStr_pattern_iff _) Himsi)).
  rewrite (name_round_trip (name m) Hname), (SecurityModel_round_trip _ Hsec),
    AmbrModel_round_trip.
  destruct i; reflexivity.
Qed.

(** X4.  Round trip of a record through its stored form: for a validated
    subscriber none of whose slices and sessions has a [None] [sd], [arp]
    or [_id], validating its dump gives the subscriber back unchanged (its
    [id] dropped when the dump excluded it) and draws no [ObjectId]. *)
Theorem dump_then_validate (m : SubscriberSchema) (e : bool) (g : ObjectIdGen) :
  Shape.subscriber m ->
  Shape.complete m ->
  SubscriberSchema_model_validate (SubscriberSchema_model_dump e m) g
  = (Valid (if e then Shape.with_id None m else m), g).
Proof.
  intros Hm Hc.
  pose proof (stored_document_round_trip m
                (i_id (SubscriberSchema_model_dump e m)) e g Hm Hc) as H.
  replace (set_id (i_id (SubscriberSchema_model_dump e m))
             (SubscriberSchema_model_dump e m))
    with (SubscriberSchema_model_dump e m) in H by reflexivity.
  rewrite H. f_equal. f_equal.
  destruct m as [[i |] ? ? ? ? ? ? ? ? ? ? ? ? ? ? ? ? ?]; destruct e; reflexivity.
Qed.

(** The sample subscribers have the shape of a validated, complete one. *)
Ltac sample_complete :=
  unfold Shape.complete;
  match goal with
  | |- Forall _ ?l => let r := eval vm_compute in l in change l with r
  end;
  repeat (constructor; cbn [sd slice_id session session_id qos arp]);
  discriminate.

Lemma sample_subscriber_shape (n : Input string) :
  n = Absent \/ n = Given "Alice" ->
  Shape.subscriber (Samples.subscriber_of (Samples.body Samples.imsi_1 n))
  /\ Shape.complete (Samples.subscriber_of (Samples.body Samples.imsi_1 n)).
Proof.
  intros [-> | ->].
  - split; [apply (SubscriberSchema_validate_shape
                     (Samples.body Samples.imsi_1 Absent) 0%N _ eq_refl) |].
    sample_complete.
  - split; [apply (SubscriberSchema_validate_shape
                     (Samples.body Samples.imsi_1 (Given "Alice")) 0%N _ eq_refl) |].
    sample_complete.
Qed.

Lemma dump_then_validate_witness :
  SubscriberSchema_model_validate
    (SubscriberSchema_model_dump true
       (Samples.subscriber_of (Samples.body Samples.imsi_1 (Given "Alice")))) 7%N
  = (Valid (Shape.with_id None
              (Samples.subscriber_of (Samples.body Samples.imsi_1 (Given "Alice")))),
     7%N).
Proof.
  exact (dump_then_validate
           (Samples.subscriber_of (Samples.body Samples.imsi_1 (Given "Alice"))) true 7%N
           (proj1 (sample_subscriber_shape (Given "Alice") (or_intror eq_refl)))
           (proj2 (sample_subscriber_shape (Given "Alice") (or_intror eq_refl)))).
Defined.

End StoredDocuments.

Section SliceDefaults.
Import Models.

(** X5.  What storage does to a slice: the dump of any slice validates;
    [sst], [default_indicator] and the number of sessions come back as
    they were, and so does a given [sd]; but an [sd] of [None] is dropped
    by the dump and comes back as the default ["000001"]. *)
Theorem slice_through_storage (s : SliceModel) (g : ObjectIdGen) :
  exists s',
    fst (SliceModel_validate (SliceModel_dump s) g) = Valid s'
    /\ sst s' = sst s
    /\ default_indicator s' = default_indicator s
    /\ List.length (session s') = List.length (session s)
    /\ sd s' = match sd s with
               | Some d => Some d
               | None => Some "000001"
               end.
Proof.
  pose proof (SliceModel_dump_valid s g) as Hv. apply is_valid_true in Hv.
  destruct Hv as [s' Hs']. exists s'. split; [exact Hs' |].
  revert Hs'. unfold SliceModel_validate.
  destruct s as [x d b ss i].
  cbn [SliceModel_dump i_session i_slice_id i_sst i_sd i_default_indicator
       required_items sst sd default_indicator session slice_id].
  destruct (validate_items SessionModel_validate 0 (map SessionModel_dump ss) g)
    as [vs g1] eqn:Ev.
  destruct (object_id_factory (dump_option (fun s => s) i) g1) as [vid g2].
  cbn [fst]. intros H. ap_inv H. cbn [sst sd default_indicator session].
  cbn in Ha3, Ha1. injection Ha3 as <-. injection Ha1 as <-.
  split; [reflexivity |]. split; [reflexivity |]. split.
  - pose proof (validate_items_valid_inv SessionModel_validate
                  (map SessionModel_dump ss) 0 g a0) as Hf.
    rewrite Ev in Hf. specialize (Hf eq_refl).
    apply Forall2_length in Hf. rewrite length_map in Hf. congruence.
  - destruct d; cbn in Ha2; injection Ha2 as <-; reflexivity.
Qed.

End SliceDefaults.

(** ** Deleting a subscriber *)

Section Deleting.
Import Models Mongo Service Subscribers.

Lemma delete_subscriber_cases (x : string) (c : Collection) (g : ObjectIdGen) :
  match split_first (imsi_is x) (documents c) with
  | None =>
      delete_subscriber x (c, g)
      = (HTTPException HTTP_404_NOT_FOUND ("Subscriber with IMSI " ++ x ++ " not found"),
         (c, g))
  | Some (before, hit, after) =>
      delete_subscriber x (c, g)
      = (Respond HTTP_200_OK
           {| status := "success"; message := "Subscriber " ++ x ++ " deleted" |},
         (with_documents (before ++ after)%list c, g))
  end.
Proof.
  unfold delete_subscriber, delete_one.
  destruct (split_first (imsi_is x) (documents c)) as [[[before hit] after] |];
    [reflexivity |].
  cbn [Z.eqb deleted_count]. destruct c. reflexivity.
Qed.

(** X6.  [delete_subscriber]: 404 and nothing changes when no stored
    record has the IMSI; otherwise 200 and exactly one record is removed,
    the first one in storage order that has the IMSI; the records with
    another IMSI are left as they were. *)
Theorem delete_subscriber_outcome (x : string) (c : Collection) (g : ObjectIdGen) :
  (existsb (imsi_is x) (documents c) = false ->
   delete_subscriber x (c, g)
   = (HTTPException HTTP_404_NOT_FOUND ("Subscriber with IMSI " ++ x ++ " not found"),
      (c, g)))
  /\ (existsb (imsi_is x) (documents c) = true ->
      exists before hit after,
        documents c = (before ++ hit :: after)%list
        /\ imsi_is x hit = true
        /\ existsb (imsi_is x) before = false
        /\ delete_subscriber x (c, g)
           = (Respond HTTP_200_OK
                {| status := "success"; message := "Subscriber " ++ x ++ " deleted" |},
              (with_documents (before ++ after)%list c, g)))
  /\ Spec.others x (documents (fst (snd (delete_subscriber x (c, g)))))
     = Spec.others x (documents c).
Proof.
  pose proof (delete_subscriber_cases x c g) as H.
  destruct (split_first (imsi_is x) (documents c)) as [[[before hit] after] |] eqn:E.
  - apply split_first_some in E. destruct E as (Hdocs & Hhit & Hbefore).
    split; [| split].
    + intros Hno. rewrite Hdocs, existsb_app in Hno. cbn [existsb] in Hno.
      rewrite Hhit, orb_true_r in Hno. discriminate Hno.
    + intros _. exists before, hit, after. repeat split; assumption.
    + rewrite H. cbn [fst snd with_documents documents].
      rewrite Hdocs, !others_app. f_equal. unfold Spec.others. cbn [filter].
      rewrite Hhit. reflexivity.
  - apply split_first_none in E. split; [| split].
    + intros _. exact H.
    + intros Hyes. congruence.
    + rewrite H. reflexivity.
Qed.

Lemma NoDup_keys_app_absent (x : string) (before after : list Document) (hit : Document) :
  NoDup (map imsi_key (before ++ hit :: after)%list) ->
  imsi_is x hit = true ->
  existsb (imsi_is x) (before ++ after)%list = false.
Proof.
  intros Hnd Hhit.
  assert (Hkey : imsi_key hit = Some x).
  { unfold imsi_is, imsi_key in *. destruct (i_imsi hit) as [| | s]; try discriminate Hhit.
    apply String.eqb_eq in Hhit. congruence. }
  rewrite map_app in Hnd. cbn [map] in Hnd. apply NoDup_remove_2 in Hnd.
  rewrite Hkey, <- map_app in Hnd.
  destruct (existsb (imsi_is x) (before ++ after)) eqn:E; [| reflexivity].
  exfalso. apply Hnd. apply existsb_exists in E. destruct E as (d & Hin & Hd).
  apply in_map_iff. exists d. split; [| exact Hin].
  unfold imsi_is, imsi_key in *. destruct (i_imsi d) as [| | s]; try discriminate Hd.
  apply String.eqb_eq in Hd. congruence.
Qed.

(** X7.  Deletion is final when the stored IMSIs are distinct: after
    [DELETE /core/subscribers/{imsi}] no stored record has the IMSI, and
    the same request again is answered 404. *)
Theorem delete_is_final (x : string) (w : World) :
  NoDup (Shape.keys (subscribers w)) ->
  existsb (imsi_is x) (documents (subscribers (snd (DELETE_subscriber x w)))) = false
  /\ fst (DELETE_subscriber x (snd (DELETE_subscriber x w)))
     = HTTPException HTTP_404_NOT_FOUND ("Subscriber with IMSI " ++ x ++ " not found").
Proof.
  intros Hnd.
  assert (Hgone : existsb (imsi_is x)
                    (documents (subscribers (snd (DELETE_subscriber x w)))) = false).
  { unfold DELETE_subscriber, store_of.
    pose proof (delete_subscriber_cases x (subscribers (get_subscriber_collection w))
                  (object_ids (get_subscriber_collection w))) as H.
    pose proof (get_subscriber_collection_documents w) as Hdocs.
    unfold Shape.keys in Hnd. rewrite <- Hdocs in Hnd.
    destruct (split_first (imsi_is x)
                (documents (subscribers (get_subscriber_collection w))))
      as [[[before hit] after] |] eqn:E; rewrite H; cbn [snd world_of subscribers fst].
    - apply split_first_some in E. destruct E as (Hd & Hhit & _).
      rewrite Hd in Hnd. cbn [with_documents documents].
      apply (NoDup_keys_app_absent x before after hit Hnd Hhit).
    - apply split_first_none in E. exact E. }
  split; [exact Hgone |].
  set (w1 := snd (DELETE_subscriber x w)) in *.
  unfold DELETE_subscriber, store_of.
  pose proof (delete_subscriber_cases x (subscribers (get_subscriber_collection w1))
                (object_ids (get_subscriber_collection w1))) as H.
  rewrite <- (get_subscriber_collection_documents w1) in Hgone.
  apply split_first_none in Hgone. rewrite Hgone in H. rewrite H. reflexivity.
Qed.

Lemma delete_is_final_witness :
  existsb (imsi_is Samples.imsi_1)
    (documents
       (subscribers
          (snd (DELETE_subscriber Samples.imsi_1
                  (Samples.world
                     [Samples.stored 1 Samples.imsi_1 Absent;
                      Samples.stored 2 Samples.imsi_2 Absent] true false true)))))
  = false
  /\ fst (DELETE_subscriber Samples.imsi_1
            (snd (DELETE_subscriber Samples.imsi_1
                    (Samples.world
                       [Samples.stored 1 Samples.imsi_1 Absent;
                        Samples.stored 2 Samples.imsi_2 Absent] true false true))))
     = HTTPException HTTP_404_NOT_FOUND "Subscriber with IMSI 001010000000001 not found".
Proof.
  apply (delete_is_final Samples.imsi_1
           (Samples.world
              [Samples.stored 1 Samples.imsi_1 Absent;
               Samples.stored 2 Samples.imsi_2 Absent] true false true)).
  unfold Shape.keys. cbn.
  repeat constructor; cbn; intuition discriminate.
Defined.

End Deleting.

(** ** Replacing, continued *)

Section ReplacingMore.
Import Models Mongo Service Subscribers.


Lemma update_subscriber_cases (x : string) (data : SubscriberSchema) (c : Collection)
    (g : ObjectIdGen) :
  match split_first (imsi_is x) (documents c) with
  | None =>
      update_subscriber x data (c, g)
      = (HTTPException HTTP_404_NOT_FOUND ("Subscriber with IMSI " ++ x ++ " not found"),
         (c, g))
  | Some (before, hit, after) =>
      fst (snd (update_subscriber x data (c, g))) = c
      \/ update_subscriber x data (c, g)
         = (Respond HTTP_200_OK
              {| status := "success"; message := "Subscriber " ++ x ++ " updated" |},
            (with_documents
               (before
                ++ set_id (i_id hit) (set_imsi x (SubscriberSchema_model_dump false data))
                :: after)%list c, g))
  end.
Proof.
  unfold update_subscriber, replace_one.
  destruct (split_first (imsi_is x) (documents c)) as [[[before hit] after] |];
    [| reflexivity].
  destruct (negb _); [left; reflexivity |].
  destruct (imsi_unique_index c && _); [left; reflexivity |].
  right. reflexivity.
Qed.

Lemma imsi_is_key (x : string) (d : Document) : imsi_is x d = true -> imsi_key d = Some x.
Proof.
  unfold imsi_is, imsi_key. destruct (i_imsi d) as [| | s]; try discriminate.
  intros H. apply String.eqb_eq in H. congruence.
Qed.

Lemma update_subscriber_keys (x : string) (data : SubscriberSchema) (c : Collection)
    (g : ObjectIdGen) :
  Shape.keys (fst (snd (update_subscriber x data (c, g)))) = Shape.keys c
  /\ imsi_unique_index (fst (snd (update_subscriber x data (c, g))))
     = imsi_unique_index c.
Proof.
  pose proof (update_subscriber_cases x data c g) as H.
  destruct (split_first (imsi_is x) (documents c)) as [[[before hit] after] |] eqn:E.
  - destruct H as [-> | ->]; [split; reflexivity |].
    apply split_first_some in E. destruct E as (Hdocs & Hhit & _).
    cbn [fst snd]. split; [| reflexivity].
    unfold Shape.keys. cbn [with_documents documents].
    rewrite Hdocs, !map_app. cbn [map]. rewrite (imsi_is_key x hit Hhit). reflexivity.
  - rewrite H. split; reflexivity.
Qed.

(** X9.  Whatever the payload and the outcome, [update_subscriber] leaves
    the sequence of stored IMSIs as it was: an IMSI embedded in the
    payload never reaches the store, and a replaced record keeps its
    place. *)
Theorem update_keeps_stored_imsis (x : string) (data : SubscriberSchema)
    (c : Collection) (g : ObjectIdGen) :
  map imsi_key (documents (fst (snd (update_subscriber x data (c, g)))))
  = map imsi_key (documents c).
Proof. apply (update_subscriber_keys x data c g). Qed.

End ReplacingMore.

(** ** Ensuring the index *)

Section EnsuringMore.
Import Models Mongo Service Subscribers.

Lemma key_eqb_eq (a b : option string) : key_eqb a b = true <-> a = b.
Proof.
  destruct a as [x |], b as [y |]; cbn; try (split; [discriminate | discriminate]).
  - rewrite String.eqb_eq. split; congruence.
  - tauto.
Qed.

Lemma has_duplicates_false (keys : list (option string)) :
  has_duplicates keys = false <-> NoDup keys.
Proof.
  induction keys as [| key rest IH]; cbn [has_duplicates].
  - split; [constructor | reflexivity].
  - rewrite orb_false_iff, IH. split.
    + intros [Hex Hnd]. constructor; [| exact Hnd].
      intros Hin. assert (Ht : existsb (key_eqb key) rest = true).
      { apply existsb_exists. exists key. split; [exact Hin | apply key_eqb_eq; reflexivity]. }
      congruence.
    + intros H. inversion H as [| ? ? Hnin Hnd]; subst. split; [| exact Hnd].
      destruct (existsb (key_eqb key) rest) eqn:E; [| reflexivity].
      apply existsb_exists in E. destruct E as (k' & Hin & Hk).
      apply key_eqb_eq in Hk. subst k'. contradiction.
Qed.

(** X10.  [_ensure_indexes] never touches the documents; it sets the flag
    only when the index exists afterwards, and an index it builds is
    built on pairwise distinct IMSIs; once it has run, running it again
    changes nothing. *)
Theorem ensure_indexes_once (self : MongoDBService) (c : Collection) :
  documents (snd (_ensure_indexes self c)) = documents c
  /\ (_indexes_initialized (fst (_ensure_indexes self c)) = true ->
      _indexes_initialized self = true
      \/ imsi_unique_index (snd (_ensure_indexes self c)) = true)
  /\ (imsi_unique_index c = false ->
      imsi_unique_index (snd (_ensure_indexes self c)) = true ->
      NoDup (map imsi_key (documents c)))
  /\ _ensure_indexes (fst (_ensure_indexes self c)) (snd (_ensure_indexes self c))
     = _ensure_indexes self c.
Proof.
  split; [apply ensure_indexes_documents |].
  destruct self as [initialized], c as [docs index refuses].
  unfold _ensure_indexes, create_index.
  cbn [_indexes_initialized refuses_index_builds imsi_unique_index documents].
  destruct initialized;
    [cbn; split; [auto | split; [congruence | reflexivity]] |].
  destruct refuses;
    [cbn; split; [discriminate | split; [congruence | reflexivity]] |].
  destruct index;
    [cbn; split; [auto | split; [discriminate | reflexivity]] |].
  destruct (has_duplicates (map imsi_key docs)) eqn:E;
    cbn [fst snd _indexes_initialized refuses_index_builds imsi_unique_index documents].
  - rewrite E. cbn. split; [discriminate | split; [congruence | reflexivity]].
  - split; [intros _; right; reflexivity |]. split; [| reflexivity].
    intros _ _. apply has_duplicates_false, E.
Qed.

End EnsuringMore.

(** ** What every route keeps *)

Section Invariants.
Import Models Mongo Service Subscribers.

Lemma create_subscriber_store (data : SubscriberSchema) (c : Collection)
    (g : ObjectIdGen) :
  fst (snd (create_subscriber data (c, g))) = c
  \/ (fst (snd (create_subscriber data (c, g)))
      = with_documents
          (documents c
           ++ [set_id (Given (ObjectId g)) (SubscriberSchema_model_dump true data)])%list c
      /\ existsb (has_id (ObjectId g)) (documents c) = false
      /\ (imsi_unique_index c = true ->
          existsb (imsi_is (imsi data)) (documents c) = false)).
Proof.
  unfold create_subscriber, insert_one.
  cbn [SubscriberSchema_model_dump id_of i_id ObjectId_new].
  destruct (existsb (has_id (ObjectId g)) (documents c)) eqn:Eid; [left; reflexivity |].
  change (imsi_key (set_id (Given (ObjectId g)) (SubscriberSchema_model_dump true data)))
    with (Some (imsi data)).
  rewrite existsb_has_key.
  destruct (imsi_unique_index c && existsb (imsi_is (imsi data)) (documents c)) eqn:E;
    [left; reflexivity |].
  right.
  destruct (SubscriberSchema_model_validate _ (N.succ g)) as [v g2].
  cbn [fst snd]. split; [reflexivity |]. split; [reflexivity |].
  intros Hi. rewrite Hi in E. exact E.
Qed.

Lemma delete_subscriber_store (x : string) (c : Collection) (g : ObjectIdGen) :
  fst (snd (delete_subscriber x (c, g))) = c
  \/ exists before hit after,
       documents c = (before ++ hit :: after)%list
       /\ fst (snd (delete_subscriber x (c, g))) = with_documents (before ++ after)%list c.
Proof.
  pose proof (delete_subscriber_cases x c g) as H.
  destruct (split_first (imsi_is x) (documents c)) as [[[before hit] after] |] eqn:E;
    rewrite H; [| left; reflexivity].
  right. apply split_first_some in E. exists before, hit, after.
  split; [apply E | reflexivity].
Qed.

Lemma get_subscribers_store (name : option string) (sst : option Z) (sd : option string)
    (limit offset : Z) (c : Collection) (g : ObjectIdGen) r st :
  get_subscribers name sst sd limit offset (c, g) = Some (r, st) -> fst st = c.
Proof.
  unfold get_subscribers.
  destruct (find (build_query name sst sd) c); [| discriminate].
  destruct (validate_documents _ g). intros [= _ <-]. reflexivity.
Qed.

Lemma ensure_consistent (w : World) :
  Shape.consistent w -> Shape.consistent (get_subscriber_collection w).
Proof.
  destruct w as [[initialized] [docs index refuses] g].
  unfold Shape.consistent, Shape.keys, get_subscriber_collection, _ensure_indexes,
    create_index.
  cbn [service subscribers _indexes_initialized refuses_index_builds
       imsi_unique_index documents].
  intros [Hflag Hnd].
  destruct initialized; [cbn; auto |].
  destruct refuses; [cbn; auto |].
  destruct index; [cbn; auto |].
  destruct (has_duplicates (map imsi_key docs)) eqn:E; cbn; [auto |].
  split; [reflexivity |]. intros _. apply has_duplicates_false, E.
Qed.

Lemma consistent_after (w1 : World) (st : Store) :
  Shape.consistent w1 ->
  imsi_unique_index (fst st) = imsi_unique_index (subscribers w1) ->
  (NoDup (Shape.keys (subscribers w1)) -> NoDup (Shape.keys (fst st))) ->
  Shape.consistent (world_of w1 st).
Proof.
  unfold Shape.consistent. intros [Hflag Hnd] Hi Hk.
  cbn [world_of service subscribers]. rewrite Hi. split; [exact Hflag |].
  intros H. apply Hk, Hnd, H.
Qed.

Lemma create_keeps_consistency (w1 : World) (data : SubscriberSchema) (g : ObjectIdGen) :
  Shape.consistent w1 ->
  Shape.consistent (world_of w1 (snd (create_subscriber data (subscribers w1, g)))).
Proof.
  intros Hc. unfold Shape.consistent in *. destruct Hc as [Hflag Hnd].
  cbn [world_of service subscribers].
  destruct (create_subscriber_store data (subscribers w1) g) as [-> | (-> & _ & Hfresh)].
  - split; assumption.
  - cbn [with_documents imsi_unique_index]. split; [exact Hflag |].
    intros Hi. specialize (Hnd Hi). specialize (Hfresh Hi).
    unfold Shape.keys in *. cbn [with_documents documents].
    rewrite map_app. cbn [map].
    change (imsi_key (set_id (Given (ObjectId g)) (SubscriberSchema_model_dump true data)))
      with (Some (imsi data)).
    apply NoDup_app; [exact Hnd | repeat constructor; intros [] |].
    intros k Hk [<- | []].
    apply in_map_iff in Hk. destruct Hk as (d & Hd & Hin).
    assert (Ht : existsb (imsi_is (imsi data)) (documents (subscribers w1)) = true).
    { apply existsb_exists. exists d. split; [exact Hin |].
      unfold imsi_is, imsi_key in *. destruct (i_imsi d); try discriminate Hd.
      injection Hd as ->. apply String.eqb_refl. }
    congruence.
Qed.

Lemma update_keeps_consistency (w1 : World) (x : string) (data : SubscriberSchema)
    (g : ObjectIdGen) :
  Shape.consistent w1 ->
  Shape.consistent (world_of w1 (snd (update_subscriber x data (subscribers w1, g)))).
Proof.
  intros Hc. destruct (update_subscriber_keys x data (subscribers w1) g) as [Hk Hi].
  apply consistent_after; [exact Hc | exact Hi |].
  rewrite Hk. tauto.
Qed.

Lemma delete_keeps_consistency (w1 : World) (x : string) (g : ObjectIdGen) :
  Shape.consistent w1 ->
  Shape.consistent (world_of w1 (snd (delete_subscriber x (subscribers w1, g)))).
Proof.
  intros Hc.
  destruct (delete_subscriber_store x (subscribers w1) g)
    as [E | (before & hit & after & Hdocs & E)];
    apply consistent_after; try exact Hc; rewrite E; try reflexivity; try tauto.
  unfold Shape.keys. cbn [with_documents documents]. rewrite Hdocs, !map_app.
  cbn [map]. apply NoDup_remove_1.
Qed.

(** X11.  Every route keeps the store consistent: the flag of the service
    is set only when the unique index exists, and while the index exists
    no two stored records have the same IMSI, whatever requests are
    served. *)
Theorem routes_keep_consistency (w : World) :
  Shape.consistent w ->
  (forall body, Shape.consistent (snd (POST_subscribers body w)))
  /\ (forall x body, Shape.consistent (snd (PUT_subscriber x body w)))
  /\ (forall x, Shape.consistent (snd (DELETE_subscriber x w)))
  /\ (forall name sst sd limit offset r w',
        GET_subscribers name sst sd limit offset w = Some (r, w') ->
        Shape.consistent w').
Proof.
  intros Hc. apply ensure_consistent in Hc.
  split; [| split; [| split]].
  - intros body. unfold POST_subscribers.
    destruct (SubscriberSchema_model_validate body _) as [[data | es] g].
    + pose proof (create_keeps_consistency _ data g Hc) as H.
      destruct (create_subscriber data _) as [r st]. exact H.
    + cbn [snd]. apply consistent_after; [exact Hc | reflexivity | tauto].
  - intros x body. unfold PUT_subscriber.
    destruct (SubscriberSchema_model_validate body _) as [[data | es] g].
    + pose proof (update_keeps_consistency _ x data g Hc) as H.
      destruct (update_subscriber x data _) as [r st]. exact H.
    + cbn [snd]. apply consistent_after; [exact Hc | reflexivity | tauto].
  - intros x. unfold DELETE_subscriber, store_of.
    pose proof (delete_keeps_consistency _ x (object_ids (get_subscriber_collection w)) Hc)
      as H.
    destruct (delete_subscriber x _) as [r st]. exact H.
  - intros name sst sd limit offset r w'. unfold GET_subscribers.
    destruct (ge 1 "limit" _ ++ ge 0 "offset" _)%list.
    + unfold store_of.
      destruct (get_subscribers name sst sd _ _ _) as [[r0 st] |] eqn:E; [| discriminate].
      intros [= _ <-]. apply get_subscribers_store in E.
      apply consistent_after; [exact Hc | rewrite E; reflexivity | rewrite E; tauto].
    + intros [= _ <-]. exact Hc.
Qed.

Lemma routes_keep_consistency_witness :
  Shape.consistent
    (snd (POST_subscribers (Samples.body Samples.imsi_2 Absent)
            (Samples.world [Samples.stored 1 Samples.imsi_1 Absent] false false false))).
Proof.
  apply (routes_keep_consistency
           (Samples.world [Samples.stored 1 Samples.imsi_1 Absent] false false false)).
  split; cbn; discriminate.
Defined.

End Invariants.

Section StoredStayValid.
Import Models Mongo Service Subscribers.

Lemma validates_imsi_pattern (d : Document) (x : string) :
  Spec.validates d -> imsi_is x d = true -> Pattern.matches ImsiStr_pattern x = true.
Proof.
  intros Hv Hx. specialize (Hv 0%N). apply is_valid_true in Hv. destruct Hv as [m Hm].
  apply SubscriberSchema_validate_inv in Hm. destruct Hm as (Hi & _).
  unfold imsi_is in Hx. destruct (i_imsi d) as [| | s]; try discriminate Hx.
  apply String.eqb_eq in Hx. subst s. cbn in Hi.
  apply constrained_valid_inv in Hi. apply Hi.
Qed.

Lemma created_document_validates (body : SubscriberInput) (g0 : ObjectIdGen)
    (data : SubscriberSchema) (i : Input BsonId) :
  fst (SubscriberSchema_model_validate body g0) = Valid data ->
  Spec.validates (set_id i (SubscriberSchema_model_dump true data)).
Proof.
  intros Hv g. apply SubscriberSchema_validate_shape in Hv. destruct Hv as (Hs & _).
  change (SubscriberSchema_model_dump true data)
    with (set_imsi (imsi data) (SubscriberSchema_model_dump true data)).
  apply stored_document_valid; [exact Hs |].
  apply ImsiStr_pattern_iff, Hs.
Qed.

Lemma replaced_document_validates (body : SubscriberInput) (g0 : ObjectIdGen)
    (data : SubscriberSchema) (x : string) (hit : Document) :
  fst (SubscriberSchema_model_validate body g0) = Valid data ->
  Spec.validates hit ->
  imsi_is x hit = true ->
  Spec.validates (set_id (i_id hit) (set_imsi x (SubscriberSchema_model_dump false data))).
Proof.
  intros Hv Hhit Hx g. apply SubscriberSchema_validate_shape in Hv.
  destruct Hv as (Hs & _).
  apply stored_document_valid; [exact Hs |].
  apply (validates_imsi_pattern hit x Hhit Hx).
Qed.

(** X12.  Every route keeps the stored documents readable: if every
    stored document validates before a create, replace or delete request,
    every stored document validates after it, so that listing never fails
    on a store that was filled through these routes. *)
Theorem routes_keep_documents_valid (w : World) :
  Forall Spec.validates (documents (subscribers w)) ->
  (forall body,
     Forall Spec.validates (documents (subscribers (snd (POST_subscribers body w)))))
  /\ (forall x body,
        Forall Spec.validates (documents (subscribers (snd (PUT_subscriber x body w)))))
  /\ (forall x,
        Forall Spec.validates (documents (subscribers (snd (DELETE_subscriber x w))))).
Proof.
  intros Hall. rewrite <- (get_subscriber_collection_documents w) in Hall.
  set (w1 := get_subscriber_collection w) in *.
  split; [| split].
  - intros body. unfold POST_subscribers. fold w1.
    destruct (SubscriberSchema_model_validate body (object_ids w1)) as [[data | es] g] eqn:E;
      [| exact Hall].
    destruct (create_subscriber_store data (subscribers w1) g) as [H | (H & _)];
      destruct (create_subscriber data (subscribers w1, g)) as [r st];
      cbn [fst snd world_of subscribers] in *; rewrite H; [exact Hall |].
    cbn [with_documents documents]. apply Forall_app. split; [exact Hall |].
    constructor; [| constructor].
    apply (created_document_validates body (object_ids w1)). rewrite E. reflexivity.
  - intros x body. unfold PUT_subscriber. fold w1.
    destruct (SubscriberSchema_model_validate body (object_ids w1)) as [[data | es] g] eqn:E;
      [| exact Hall].
    pose proof (update_subscriber_cases x data (subscribers w1) g) as H.
    destruct (split_first (imsi_is x) (documents (subscribers w1)))
      as [[[before hit] after] |] eqn:Es.
    + apply split_first_some in Es. destruct Es as (Hdocs & Hhit & _).
      destruct H as [H | H];
        destruct (update_subscriber x data (subscribers w1, g)) as [r st];
        cbn [fst snd world_of subscribers] in *; [rewrite H; exact Hall |].
      injection H as _ ->. cbn [fst with_documents documents].
      rewrite Hdocs in Hall. apply Forall_app in Hall. destruct Hall as [Hb Ha].
      inversion Ha as [| ? ? Hh Haf]; subst.
      apply Forall_app. split; [exact Hb |]. constructor; [| exact Haf].
      apply (replaced_document_validates body (object_ids w1));
        [rewrite E; reflexivity | exact Hh | exact Hhit].
    + rewrite H. exact Hall.
  - intros x. unfold DELETE_subscriber, store_of. fold w1.
    destruct (delete_subscriber_store x (subscribers w1) (object_ids w1))
      as [H | (before & hit & after & Hdocs & H)];
      destruct (delete_subscriber x (subscribers w1, object_ids w1)) as [r st];
      cbn [fst snd world_of subscribers] in *; rewrite H; [exact Hall |].
    cbn [with_documents documents]. rewrite Hdocs in Hall.
    apply Forall_app in Hall. destruct Hall as [Hb Ha].
    inversion Ha; subst. apply Forall_app. split; assumption.
Qed.

Lemma routes_keep_documents_valid_witness :
  Forall Spec.validates
    (documents
       (subscribers
          (snd (PUT_subscriber Samples.imsi_1 (Samples.body Samples.imsi_2 (Given "Alice"))
                  (Samples.world [Samples.stored 1 Samples.imsi_1 Absent]
                     true false true))))).
Proof.
  apply (routes_keep_documents_valid
           (Samples.world [Samples.stored 1 Samples.imsi_1 Absent] true false true)).
  apply all_validate_by_running. vm_compute. reflexivity.
Defined.

End StoredStayValid.

(** ** Listing, continued *)

Section Paging.
Import Models Mongo Service Subscribers.

Lemma In_firstn_skipn {A} (n k : nat) (l : list A) (x : A) :
  In x (firstn n (skipn k l)) -> In x l.
Proof.
  intros H.
  assert (Hs : In x (skipn k l)).
  { rewrite <- (firstn_skipn n (skipn k l)). apply in_or_app. left. exact H. }
  rewrite <- (firstn_skipn k l). apply in_or_app. right. exact Hs.
Qed.

(** What the route answers for a limit of at least 1 and an offset of at
    least 0, when the query selects [found]. *)
Lemma GET_subscribers_page (w : World) (q : Query) (found : list Document)
    (name : option string) (sst : option Z) (sd : option string) (limit offset : Z) :
  (1 <= limit)%Z ->
  (0 <= offset)%Z ->
  build_query name sst sd = q ->
  find q (subscribers (get_subscriber_collection w)) = Some found ->
  Forall Spec.validates found ->
  exists ms w',
    GET_subscribers name sst sd (Some limit) (Some offset) w
    = Some (Respond HTTP_200_OK ms, w')
    /\ Forall2 Spec.reads_as (firstn (Z.to_nat limit) (skipn (Z.to_nat offset) found)) ms
    /\ documents (subscribers w') = documents (subscribers w).
Proof.
  intros Hl Ho Hq Hfind Hvalid.
  unfold GET_subscribers, ge.
  apply Z.leb_le in Hl as Hl'. apply Z.leb_le in Ho as Ho'. rewrite Hl', Ho'.
  cbn [app]. unfold get_subscribers, store_of. rewrite Hq, Hfind.
  unfold Mongo.limit, Mongo.skip.
  assert (Hz : Z.eqb limit 0 = false) by (apply Z.eqb_neq; lia). rewrite Hz.
  rewrite (Z.abs_eq limit) by lia.
  set (page := firstn (Z.to_nat limit) (skipn (Z.to_nat offset) found)).
  assert (Hpage : Forall Spec.validates page).
  { rewrite Forall_forall in *. intros d Hd. apply Hvalid.
    apply (In_firstn_skipn _ _ _ _ Hd). }
  destruct (validate_documents_reads _ Hpage
              (object_ids (get_subscriber_collection w))) as (ms & Hms & Hall).
  destruct (validate_documents page _) as [r g']. cbn [fst] in Hms. subst r.
  do 2 eexists. split; [reflexivity |]. split; [exact Hall |].
  cbn [world_of subscribers fst]. apply get_subscriber_collection_documents.
Qed.

Lemma filter_all {A} (l : list A) : filter (fun _ => true) l = l.
Proof. induction l as [| a l IH]; cbn; congruence. Qed.



(** X14.  A limit below 1 or an offset below 0 is refused with 422
    before the handler runs, whatever the filters, and the stored
    documents are left as they were. *)
Theorem list_rejects_bad_paging (name : option string) (sst : option Z)
    (sd : option string) (limit offset : Z) (w : World) :
  (limit < 1 \/ offset < 0)%Z ->
  exists es w',
    GET_subscribers name sst sd (Some limit) (Some offset) w
    = Some (RequestValidationError es, w')
    /\ es <> []
    /\ documents (subscribers w') = documents (subscribers w).
Proof.
  intros H. unfold GET_subscribers, ge.
  destruct (Z.leb 1 limit) eqn:El; destruct (Z.leb 0 offset) eqn:Eo;
    cbn [app];
    try (do 2 eexists; split; [reflexivity |];
         split; [discriminate | apply get_subscriber_collection_documents]).
  apply Z.leb_le in El, Eo. lia.
Qed.

Lemma list_rejects_bad_paging_witness :
  exists es w',
    GET_subscribers (Some "(") None None (Some 0%Z) (Some 0%Z)
      (Samples.world (Samples.store_n 2) true false true)
    = Some (RequestValidationError es, w')
    /\ es <> []
    /\ documents (subscribers w') = Samples.store_n 2.
Proof.
  apply (list_rejects_bad_paging (Some "(") None None 0%Z 0%Z
           (Samples.world (Samples.store_n 2) true false true)).
  left. lia.
Defined.

Lemma selects_sst_sd_iff (x : Z) (v : string) (d : Document) :
  selects None (Some {| em_sst := x; em_sd := Some v |}) d = true <->
  Shape.has_slice_with x v d.
Proof.
  unfold selects, elem_match, Shape.has_slice_with. cbn [andb].
  destruct (i_slice d) as [| | slices].
  - split; [discriminate | intros (? & ? & H & _); discriminate H].
  - split; [discriminate | intros (? & ? & H & _); discriminate H].
  - rewrite existsb_exists. split.
    + intros (s & Hin & Hs). exists slices, s.
      unfold slice_satisfies, Input_eqb in Hs. cbn [em_sst em_sd] in Hs.
      apply andb_true_iff in Hs. destruct Hs as [Hx Hv].
      destruct (i_sst s) as [| | y]; try discriminate Hx.
      destruct (i_sd s) as [| | u]; try discriminate Hv.
      apply Z.eqb_eq in Hx. apply String.eqb_eq in Hv. subst.
      repeat split; assumption.
    + intros (slices' & s & Heq & Hin & Hx & Hv). injection Heq as <-.
      exists s. split; [exact Hin |].
      unfold slice_satisfies, Input_eqb. cbn [em_sst em_sd]. rewrite Hx, Hv.
      rewrite Z.eqb_refl, String.eqb_refl. reflexivity.
Qed.



(** X16.  Listing only reads: whatever the filters, the paging and the
    outcome (200, 422, or a stored document that does not validate), the
    stored documents are the same after the request. *)
Theorem list_only_reads (name : option string) (sst : option Z) (sd : option string)
    (limit offset : option Z) (w : World) r (w' : World) :
  GET_subscribers name sst sd limit offset w = Some (r, w') ->
  documents (subscribers w') = documents (subscribers w).
Proof.
  unfold GET_subscribers.
  destruct (ge 1 "limit" _ ++ ge 0 "offset" _)%list.
  - unfold store_of.
    destruct (get_subscribers name sst sd _ _ _) as [[r0 st] |] eqn:E; [| discriminate].
    intros [= _ <-]. apply get_subscribers_store in E.
    cbn [world_of subscribers]. rewrite E. apply get_subscriber_collection_documents.
  - intros [= _ <-]. apply get_subscriber_collection_documents.
Qed.

Lemma list_only_reads_witness :
  documents
    (subscribers
       (Samples.world [Samples.stored 1 Samples.imsi_1 (Given "abc")] true false true))
  = [Samples.stored 1 Samples.imsi_1 (Given "abc")].
Proof.
  exact (list_only_reads (Some ".") None None None None
           (Samples.world [Samples.stored 1 Samples.imsi_1 (Given "abc")] false false false)
           _
           (Samples.world [Samples.stored 1 Samples.imsi_1 (Given "abc")] true false true)
           eq_refl).
Defined.

End Paging.

(** ** Creating, continued *)

Section CreatingMore.
Import Models Mongo Service Subscribers.

Lemma POST_subscribers_fresh (w : World) (body : SubscriberInput)
    (data : SubscriberSchema) (g1 : ObjectIdGen) :
  SubscriberSchema_model_validate body (object_ids (get_subscriber_collection w))
  = (Valid data, g1) ->
  Shape.complete data ->
  existsb (imsi_is (imsi data)) (documents (subscribers w)) = false ->
  existsb (has_id (ObjectId g1)) (documents (subscribers w)) = false ->
  POST_subscribers body w
  = (Respond HTTP_201_CREATED (Shape.with_id (Some (ObjectId_str g1)) data),
     world_of (get_subscriber_collection w)
       (with_documents
          (documents (subscribers w)
           ++ [set_id (Given (ObjectId g1)) (SubscriberSchema_model_dump true data)])%list
          (subscribers (get_subscriber_collection w)),
        N.succ g1)).
Proof.
  intros Hv Hc Himsi Hid.
  assert (Hs : Shape.subscriber data).
  { apply (SubscriberSchema_validate_shape body
             (object_ids (get_subscriber_collection w))). rewrite Hv. reflexivity. }
  unfold POST_subscribers. rewrite Hv.
  unfold create_subscriber, insert_one.
  cbn [SubscriberSchema_model_dump id_of i_id ObjectId_new].
  rewrite get_subscriber_collection_documents, Hid.
  change (imsi_key (set_id (Given (ObjectId g1)) (SubscriberSchema_model_dump true data)))
    with (Some (imsi data)).
  rewrite existsb_has_key, Himsi, andb_false_r.
  rewrite (stored_document_round_trip data
             (Given (StrId (PyObjectId (ObjectId g1)))) true (N.succ g1) Hs Hc).
  reflexivity.
Qed.


Lemma sample_body_complete (x : string) (n : Input string) (g : ObjectIdGen)
    (data : SubscriberSchema) :
  fst (SubscriberSchema_model_validate (Samples.body x n) g) = Valid data ->
  Shape.complete data.
Proof.
  intros H. apply SubscriberSchema_validate_inv in H.
  destruct H as (_ & _ & _ & (g' & Hslice) & _).
  unfold Samples.body, Samples.subscriber_input in Hslice.
  cbn [i_slice required_items validate_items] in Hslice.
  unfold Shape.complete.
  revert Hslice.
  unfold SliceModel_validate, Samples.slice_input, Samples.session_input.
  cbn [i_session i_slice_id i_sst i_sd i_default_indicator required_items
       validate_items SessionModel_validate i_session_id object_id_factory ObjectId_new
       i_session_name i_session_type i_qos i_session_ambr i_ue i_pcc_rule
       i_lbo_roaming_allowed V.defaulted V.optional V.any field V.under V.ap].
  intros [= <- _].
  repeat (constructor; cbn [sd slice_id session session_id qos arp]);
    unfold QosModel_default; cbn [arp]; discriminate.
Qed.


End CreatingMore.

Section CreateThenList.
Import Models Mongo Service Subscribers.



End CreateThenList.

(** ** The proxy, continued *)

Section ProxyOutcomes.
Import Proxy.

Variable json_loads : string -> option JSON.


End ProxyOutcomes.

(** ** The connection *)

Section ConnectionLifecycle.
Import Connection.



End ConnectionLifecycle.

(** ** The exerciser script *)

Section ScriptPayload.
Import Models.

Lemma chars_append (a b : string) :
  Text.chars (a ++ b) = (Text.chars a ++ Text.chars b)%list.
Proof. induction a as [| c a IH]; cbn; congruence. Qed.

Lemma append_length (a b : string) :
  String.length (a ++ b) = String.length a + String.length b.
Proof. rewrite <- !chars_length, chars_append. apply length_app. Qed.

Lemma is_decimal_digit (c : ascii) :
  In c (Text.chars "0123456789") -> Spec.decimal_digit c.
Proof. exact (fun H => H). Qed.

Lemma uint_digits (d : Decimal.uint) :
  Forall Spec.decimal_digit (Text.chars (NilEmpty.string_of_uint d)).
Proof.
  induction d; cbn [NilEmpty.string_of_uint Text.chars]; constructor;
    try assumption; apply is_decimal_digit; cbn; tauto.
Qed.

Lemma str_digits (z : Z) :
  (0 <= z)%Z -> Forall Spec.decimal_digit (Text.chars (Py.str z)).
Proof.
  intros Hz. unfold Py.str. destruct z as [| p | p]; [| | lia].
  - cbn. constructor; [apply is_decimal_digit; cbn; tauto | constructor].
  - cbn [Z.to_int NilZero.string_of_int]. unfold NilZero.string_of_uint.
    destruct (Pos.to_uint p) eqn:E; try (rewrite <- E; apply uint_digits).
    cbn. constructor; [apply is_decimal_digit; cbn; tauto | constructor].
Qed.

Lemma drop_digits (P : ascii -> Prop) (n : nat) : forall s,
  Forall P (Text.chars s) -> Forall P (Text.chars (Py.drop n s)).
Proof.
  induction n as [| n IH]; intros s H; [destruct s; exact H |].
  destruct s as [| c s]; [exact H |]. cbn [Py.drop]. apply IH.
  cbn [Text.chars] in H. inversion H; assumption.
Qed.

Lemma drop_length (n : nat) : forall s,
  String.length (Py.drop n s) = String.length s - n.
Proof.
  induction n as [| n IH]; intros s; [destruct s; cbn; lia |].
  destruct s as [| c s]; [reflexivity |]. cbn [Py.drop String.length]. apply IH.
Qed.

Lemma randint_digit (raw : nat) :
  exists c, Py.str (Script.randint 0 9 raw) = String c EmptyString
            /\ Spec.decimal_digit c.
Proof.
  unfold Script.randint.
  assert (H : (0 <= Z.of_nat raw mod (9 - 0 + 1) < 10)%Z)
    by (apply Z.mod_pos_bound; lia).
  set (r := (Z.of_nat raw mod (9 - 0 + 1))%Z) in *.
  assert (Hr : In r [0; 1; 2; 3; 4; 5; 6; 7; 8; 9]%Z) by (cbn; lia).
  cbn in Hr.
  repeat (destruct Hr as [<- | Hr];
          [eexists; split; [reflexivity | apply is_decimal_digit; cbn; tauto] |]).
  destruct Hr.
Qed.

Lemma random_part_digits (draw : nat -> nat) :
  let part := Py.join (map (fun n => Py.str (Script.randint 0 9 (draw n))) (seq 0 5)) in
  String.length part = 5 /\ Forall Spec.decimal_digit (Text.chars part).
Proof.
  cbn [seq map Py.join].
  destruct (randint_digit (draw 0)) as (c0 & -> & H0).
  destruct (randint_digit (draw 1)) as (c1 & -> & H1).
  destruct (randint_digit (draw 2)) as (c2 & -> & H2).
  destruct (randint_digit (draw 3)) as (c3 & -> & H3).
  destruct (randint_digit (draw 4)) as (c4 & -> & H4).
  cbn [Py.join String.append String.length Text.chars].
  split; [reflexivity |].
  repeat (apply Forall_cons; [assumption |]). apply Forall_nil.
Qed.

Lemma implode_chars (l : list ascii) : Text.chars (Py.implode l) = l.
Proof. induction l as [| c l IH]; cbn; congruence. Qed.

Lemma choice_hex (raw : nat) : Spec.hex_char (Script.choice "0123456789ABCDEF" raw).
Proof.
  unfold Script.choice.
  assert (H : In (nth (Nat.modulo raw (String.length "0123456789ABCDEF"))
                    (Text.chars "0123456789ABCDEF") "0"%char)
                (Text.chars "0123456789ABCDEF")).
  { apply nth_In. rewrite chars_length. apply Nat.mod_upper_bound. discriminate. }
  revert H. generalize (nth (Nat.modulo raw (String.length "0123456789ABCDEF"))
                          (Text.chars "0123456789ABCDEF") "0"%char).
  intros c H. unfold Spec.hex_char. cbn in H |- *. intuition.
Qed.

Lemma random_key_hex (draw : nat -> nat) (start : nat) :
  Spec.hex_of_length 32
    (Py.implode (map (fun n => Script.choice "0123456789ABCDEF" (draw n)) (seq start 32))).
Proof.
  split.
  - rewrite <- chars_length, implode_chars, length_map, length_seq. reflexivity.
  - rewrite implode_chars. apply Forall_forall. intros c Hc.
    apply in_map_iff in Hc. destruct Hc as (n & <- & _). apply choice_hex.
Qed.

Lemma generated_imsi (now_ms : Z) (draw : nat -> nat) :
  (0 <= now_ms)%Z ->
  9 <= String.length (Py.str now_ms) ->
  Pattern.matches ImsiStr_pattern
    (Py.last 10 (Py.str now_ms)
     ++ Py.join (map (fun n => Py.str (Script.randint 0 9 (draw n))) (seq 0 5))) = true.
Proof.
  intros Hz Hlen. apply ImsiStr_pattern_iff.
  destruct (random_part_digits draw) as [Hl Hd].
  rewrite append_length, chars_append, Hl. unfold Py.last. rewrite drop_length.
  split; [lia |]. apply Forall_app. split; [| exact Hd].
  apply drop_digits, str_digits, Hz.
Qed.

(** X21.  The exerciser script always posts a body that the server
    accepts: whatever the random draws, when the clock's millisecond
    count has at least 9 digits and the name has at most 100 characters,
    the subscriber that [generate_subscriber] builds validates, with an
    IMSI made of the last 10 digits of the clock followed by 5 random
    digits, and with the given name. *)
Theorem generated_subscriber_validates (name : string) (now_ms : Z)
    (draw : nat -> nat) (g : ObjectIdGen) :
  (0 <= now_ms)%Z ->
  9 <= String.length (Py.str now_ms) ->
  String.length name <= 100 ->
  exists m,
    fst (SubscriberSchema_model_validate (Script.generate_subscriber name now_ms draw) g)
    = Valid m
    /\ i_imsi (Script.generate_subscriber name now_ms draw) = Given (imsi m)
    /\ (String.length (imsi m) = 14 \/ String.length (imsi m) = 15)
    /\ String.length (imsi m) = Nat.min 10 (String.length (Py.str now_ms)) + 5
    /\ name = match Models.name m with Some n => n | None => EmptyString end.
Proof.
  intros Hz Hlen Hname.
  pose proof (generated_imsi now_ms draw Hz Hlen) as Himsi.
  assert (Hv : V.is_valid
                 (fst (SubscriberSchema_model_validate
                         (Script.generate_subscriber name now_ms draw) g)) = true).
  { rewrite (SubscriberSchema_validity _ g 0%N).
    unfold SubscriberSchema_model_validate, Script.generate_subscriber.
    cbn [i_id i_schema_version i_imsi i_name i_msisdn i_imeisv i_mme_host i_mm_realm
         i_purge_flag i_slice i_security i_ambr i_access_restriction_data
         i_network_access_mode i_subscriber_status i_operator_determined_barring
         i_subscribed_rau_tau_timer i_v].
    match goal with
    | |- context [required_items SliceModel_validate ?i 0%N] =>
        let r := eval vm_compute in (required_items SliceModel_validate i 0%N) in
        change (required_items SliceModel_validate i 0%N) with r
    end.
    cbn [fst]. rewrite !is_valid_ap, !is_valid_field.
    cbn [V.required V.defaulted V.optional V.any V.bind].
    rewrite (ImsiStr_canonical _ Himsi).
    unfold max_length. apply Nat.leb_le in Hname. rewrite Hname.
    change {| i_k := Given ?a; i_amf := Given "8000"; i_op := Absent; i_opc := Given ?b |}
      with (SecurityModel_dump {| k := a; amf := "8000"; op := None; opc := Some b |}).
    rewrite SecurityModel_round_trip.
    - reflexivity.
    - split; [apply random_key_hex |]. split.
      + apply hex_pattern_iff. vm_compute. reflexivity.
      + right. eexists. split; [reflexivity |]. split; [apply random_key_hex | reflexivity]. }
  apply is_valid_true in Hv. destruct Hv as [m Hm]. exists m. split; [exact Hm |].
  apply SubscriberSchema_validate_shape in Hm.
  destruct Hm as ((Hshape & _) & Hi & Hn & Hnone & _).
  split; [exact Hi |]. split; [apply Hshape |].
  assert (Him : imsi m
                = (Py.last 10 (Py.str now_ms)
                   ++ Py.join (map (fun n => Py.str (Script.randint 0 9 (draw n)))
                                 (seq 0 5)))%string).
  { unfold Script.generate_subscriber in Hi. cbn [i_imsi] in Hi. congruence. }
  split.
  - rewrite Him, append_length. destruct (random_part_digits draw) as [-> _].
    unfold Py.last. rewrite drop_length. lia.
  - destruct (Models.name m) as [n |] eqn:En.
    + specialize (Hn n eq_refl). unfold Script.generate_subscriber in Hn.
      cbn [i_name] in Hn. congruence.
    + exfalso. apply Hnone; [reflexivity |].
      unfold Script.generate_subscriber. cbn [i_name]. exact I.
Qed.

Lemma generated_subscriber_validates_witness :
  exists m,
    fst (SubscriberSchema_model_validate
           (Script.generate_subscriber "Test Subscriber 20250101-120000" 1735732800123
              (fun n => 7 * n + 3)) 0%N) = Valid m
    /\ i_imsi (Script.generate_subscriber "Test Subscriber 20250101-120000" 1735732800123
                 (fun n => 7 * n + 3)) = Given (imsi m)
    /\ (String.length (imsi m) = 14 \/ String.length (imsi m) = 15)
    /\ String.length (imsi m) = Nat.min 10 (String.length (Py.str 1735732800123)) + 5
    /\ "Test Subscriber 20250101-120000"
       = match Models.name m with Some n => n | None => EmptyString end.
Proof.
  apply (generated_subscriber_validates "Test Subscriber 20250101-120000" 1735732800123
           (fun n => 7 * n + 3) 0%N).
  - lia.
  - vm_compute. lia.
  - vm_compute. lia.
Defined.

End ScriptPayload.
